(** * The LeviathanBuild controller (jobrunner/internal/controller)

    A shallow embedding of [leviathanbuild_controller.go]: the job
    synthesizer [constructJobForLeviathanBuild], the comparator
    [jobSpecsEqual], the reconcile pass [Reconcile] and the field-index
    extractor registered by [SetupWithManager].

    The cluster client is an interface in the source ([client.Client],
    embedded in the reconciler); here it is a record of operations over an
    arbitrary world, and every pass records the calls it issues.  An
    in-memory cluster gives the interface one concrete implementation. *)

From Stdlib Require Import ZArith QArith List Bool Ascii String.
From stdpp Require Import base option strings pretty gmap.

Open Scope Z_scope.
Open Scope string_scope.

(** ** Go's [time] package: the zero [Time] and [Unix] *)

Module GoTime.

(** [time.Time] without its location pointer: the wall word and the
    extended seconds. *)
Record Time := { wall : Z; ext : Z }.

(** [time.Time{}] *)
Definition zero : Time := {| wall := 0; ext := 0 |}.

Definition secondsPerDay : Z := 86400.
Definition hasMonotonic : Z := Z.shiftl 1 63.
Definition nsecShift : Z := 30.

Definition unixToInternal : Z :=
  (1969 * 365 + 1969 / 4 - 1969 / 100 + 1969 / 400) * secondsPerDay.
Definition internalToUnix : Z := - unixToInternal.
Definition wallToInternal : Z :=
  (1884 * 365 + 1884 / 4 - 1884 / 100 + 1884 / 400) * secondsPerDay.

(** [func (t *Time) sec() int64] *)
Definition sec (t : Time) : Z :=
  if Z.eqb (Z.land (wall t) hasMonotonic) 0
  then ext t
  else wallToInternal
       + Z.shiftr (Z.land (Z.shiftl (wall t) 1) (Z.ones 64)) (nsecShift + 1).

(** [func (t Time) Unix() int64] *)
Definition Unix (t : Time) : Z := sec t + internalToUnix.

(** [time.Duration] counts nanoseconds. *)
Definition Duration := Z.
Definition Nanosecond : Duration := 1.
Definition Microsecond : Duration := 1000 * Nanosecond.
Definition Millisecond : Duration := 1000 * Microsecond.
Definition Second : Duration := 1000 * Millisecond.
Definition Minute : Duration := 60 * Second.

End GoTime.

(** [fmt.Sprintf("%s-%d", s, d)] *)
Definition Sprintf_s_d (s : string) (d : Z) : string :=
  s +:+ "-" +:+ pretty d.

(** ** Reflection trees and [equality.Semantic.DeepEqual]

    [jobSpecsEqual] hands both specs to apimachinery's
    [equality.Semantic.DeepEqual], which walks the two values by
    reflection.  A [Value] is what that walk sees. *)

#[local] Unset Elimination Schemes.
Inductive Value : Type :=
| VBool (b : bool)
| VInt (n : Z)
| VString (s : string)
| VQuantity (amount : Q) (format : string)
| VTime (t : GoTime.Time)
| VPtr (p : option Value)
| VSlice (xs : option (list Value))
| VMap (kvs : option (list (string * Value)))
| VStruct (fields : list Value).
#[local] Set Elimination Schemes.

(** [v.IsNil() || v.Len() == 0] *)
Definition nil_or_empty {A} (o : option (list A)) : bool :=
  match o with
  | None | Some [] => true
  | Some (_ :: _) => false
  end.

Fixpoint assoc_lookup {A} (k : string) (m : list (string * A)) : option A :=
  match m with
  | [] => None
  | (k', v) :: m' => if String.eqb k k' then Some v else assoc_lookup k m'
  end.

Section Walk.

Variable eqv : Value -> Value -> bool.

(** Element by element, for slices of one length and for the fields of
    two structs of one type. *)
Fixpoint all2 (l1 l2 : list Value) : bool :=
  match l1, l2 with
  | [], [] => true
  | a :: l1', b :: l2' => eqv a b && all2 l1' l2'
  | _, _ => false
  end.

(** Every key of the first map is in the second, with an equal value. *)
Fixpoint all_keys (m2 m1 : list (string * Value)) : bool :=
  match m1 with
  | [] => true
  | (k, a) :: m1' =>
      match assoc_lookup k m2 with
      | Some b => eqv a b && all_keys m2 m1'
      | None => false
      end
  end.

Definition ptr_equal (p1 p2 : option Value) : bool :=
  match p1, p2 with
  | None, None => true
  | Some a, Some b => eqv a b
  | _, _ => false
  end.

End Walk.

(** The walk of [Equalities.deepValueEqual]: pointers are equal when both
    are nil or both point to equal values; a nil slice or map equals an
    empty one; structs compare field by field; [resource.Quantity] and
    [metav1.Time] go through the comparison functions registered in
    [equality.Semantic]: [a.Cmp(b) == 0], which ignores the format, and
    [a.UTC() == b.UTC()]. *)
Fixpoint deepValueEqual (v1 v2 : Value) {struct v1} : bool :=
  match v1, v2 with
  | VBool a, VBool b => Bool.eqb a b
  | VInt a, VInt b => Z.eqb a b
  | VString a, VString b => String.eqb a b
  | VQuantity a _, VQuantity b _ => Qeq_bool a b
  | VTime a, VTime b =>
      Z.eqb (GoTime.wall a) (GoTime.wall b) && Z.eqb (GoTime.ext a) (GoTime.ext b)
  | VPtr p1, VPtr p2 => ptr_equal deepValueEqual p1 p2
  | VSlice s1, VSlice s2 =>
      if negb (Bool.eqb (nil_or_empty s1) (nil_or_empty s2)) then false
      else
        match s1, s2 with
        | Some l1, Some l2 => all2 deepValueEqual l1 l2
        | _, _ => true
        end
  | VMap m1, VMap m2 =>
      if negb (Bool.eqb (nil_or_empty m1) (nil_or_empty m2)) then false
      else
        match m1, m2 with
        | Some l1, Some l2 =>
            Nat.eqb (length l1) (length l2) && all_keys deepValueEqual l2 l1
        | _, _ => true
        end
  | VStruct f1, VStruct f2 => all2 deepValueEqual f1 f2
  | _, _ => false
  end.

(** A Go map holds each key once. *)
Fixpoint no_dup_keys (ks : list string) : bool :=
  match ks with
  | [] => true
  | k :: ks' => negb (existsb (String.eqb k) ks') && no_dup_keys ks'
  end.

(** The trees that are reflections of Go values: every map in them holds
    each of its keys once. *)
Fixpoint wf_value (v : Value) : bool :=
  match v with
  | VPtr (Some a) => wf_value a
  | VSlice (Some l) => forallb wf_value l
  | VMap (Some m) =>
      no_dup_keys (map fst m) && forallb (fun kv => wf_value (snd kv)) m
  | VStruct l => forallb wf_value l
  | _ => true
  end.

Definition wf_ptr (p : option Value) : bool :=
  match p with
  | Some v => wf_value v
  | None => true
  end.

Section ValueInduction.

Variable P : Value -> Prop.
Hypothesis HBool : forall b, P (VBool b).
Hypothesis HInt : forall n, P (VInt n).
Hypothesis HString : forall s, P (VString s).
Hypothesis HQuantity : forall a f, P (VQuantity a f).
Hypothesis HTime : forall t, P (VTime t).
Hypothesis HNilPtr : P (VPtr None).
Hypothesis HPtr : forall v, P v -> P (VPtr (Some v)).
Hypothesis HNilSlice : P (VSlice None).
Hypothesis HSlice : forall l, Forall P l -> P (VSlice (Some l)).
Hypothesis HNilMap : P (VMap None).
Hypothesis HMap :
  forall m, Forall (fun kv => P (snd kv)) m -> P (VMap (Some m)).
Hypothesis HStruct : forall l, Forall P l -> P (VStruct l).

(** Induction over a tree, with the hypothesis for every element of a
    slice, value of a map and field of a struct. *)
Fixpoint Value_ind (v : Value) : P v :=
  match v with
  | VBool b => HBool b
  | VInt n => HInt n
  | VString s => HString s
  | VQuantity a f => HQuantity a f
  | VTime t => HTime t
  | VPtr None => HNilPtr
  | VPtr (Some a) => HPtr a (Value_ind a)
  | VSlice None => HNilSlice
  | VSlice (Some l) =>
      HSlice l
        ((fix go (l : list Value) : Forall P l :=
            match l with
            | [] => @List.Forall_nil _ P
            | x :: l' => @List.Forall_cons _ P x l' (Value_ind x) (go l')
            end) l)
  | VMap None => HNilMap
  | VMap (Some m) =>
      HMap m
        ((fix go (m : list (string * Value))
            : Forall (fun kv => P (snd kv)) m :=
            match m with
            | [] => @List.Forall_nil _ _
            | kv :: m' =>
                @List.Forall_cons _ (fun kv => P (snd kv)) kv m'
                  (match kv return P (snd kv) with
                   | (_, x) => Value_ind x
                   end)
                  (go m')
            end) m)
  | VStruct l =>
      HStruct l
        ((fix go (l : list Value) : Forall P l :=
            match l with
            | [] => @List.Forall_nil _ P
            | x :: l' => @List.Forall_cons _ P x l' (Value_ind x) (go l')
            end) l)
  end.

End ValueInduction.

(** Pointer fields of a struct, as the walk treats them. *)
Definition ptrZ_equal (p1 p2 : option Z) : bool :=
  match p1, p2 with
  | None, None => true
  | Some a, Some b => Z.eqb a b
  | _, _ => false
  end.

Definition ptrBool_equal (p1 p2 : option bool) : bool :=
  match p1, p2 with
  | None, None => true
  | Some a, Some b => Bool.eqb a b
  | _, _ => false
  end.

Definition ptrString_equal (p1 p2 : option string) : bool :=
  match p1, p2 with
  | None, None => true
  | Some a, Some b => String.eqb a b
  | _, _ => false
  end.

(** ** Kubernetes API types the controller touches *)

Module metav1.

(** [metav1.OwnerReference]; [Controller] and [BlockOwnerDeletion] are
    [*bool] in Go. *)
Record OwnerReference := {
  APIVersion : string;
  Kind : string;
  RefName : string;
  RefUID : string;
  Controller : option bool;
  BlockOwnerDeletion : option bool
}.

(** The part of [metav1.ObjectMeta] that the controller and the cluster
    read or write.  A Go map that is nil and one that is empty are the
    same [gmap]. *)
Record ObjectMeta := {
  Name : string;
  Namespace : string;
  UID : string;
  ResourceVersion : string;
  CreationTimestamp : GoTime.Time;
  Labels : gmap string string;
  Annotations : gmap string string;
  OwnerReferences : list OwnerReference
}.

(** [metav1.GetControllerOfNoCopy]: the first owner reference whose
    [Controller] is set and true.  [GetControllerOf] returns a copy of
    it. *)
Fixpoint GetControllerOfRefs (refs : list OwnerReference)
  : option OwnerReference :=
  match refs with
  | [] => None
  | r :: refs' =>
      match Controller r with
      | Some true => Some r
      | _ => GetControllerOfRefs refs'
      end
  end.

Definition GetControllerOf (m : ObjectMeta) : option OwnerReference :=
  GetControllerOfRefs (OwnerReferences m).

(** [metav1.Condition] *)
Record Condition := {
  Type_ : string;
  Status : string;
  ObservedGeneration : Z;
  LastTransitionTime : GoTime.Time;
  Reason : string;
  Message : string
}.

End metav1.

Module schema.

Record GroupVersion := { Group : string; Version : string }.

(** [func (gv GroupVersion) String() string] *)
Definition GroupVersion_String (gv : GroupVersion) : string :=
  if String.eqb (Group gv) "" then Version gv
  else Group gv +:+ "/" +:+ Version gv.

Record GroupVersionKind := {
  GVKGroup : string;
  GVKVersion : string;
  GVKKind : string
}.

Definition GVK_GroupVersion (gvk : GroupVersionKind) : GroupVersion :=
  {| Group := GVKGroup gvk; Version := GVKVersion gvk |}.

End schema.

Module corev1.

Record ObjectReference := {
  Kind : string;
  Namespace : string;
  Name : string;
  UID : string;
  APIVersion : string;
  ResourceVersion : string;
  FieldPath : string
}.

End corev1.

Module batchv1.

(** [batchv1.JobSpec], field for field.  Pointers to scalars are
    options; the pod template and the pointed-to policy structs are kept
    as reflection trees. *)
Record JobSpec := {
  Parallelism : option Z;
  Completions : option Z;
  ActiveDeadlineSeconds : option Z;
  PodFailurePolicy : option Value;
  SuccessPolicy : option Value;
  BackoffLimit : option Z;
  BackoffLimitPerIndex : option Z;
  MaxFailedIndexes : option Z;
  Selector : option Value;
  ManualSelector : option bool;
  Template : Value;
  TTLSecondsAfterFinished : option Z;
  CompletionMode : option string;
  Suspend : option bool;
  PodReplacementPolicy : option string;
  ManagedBy : option string
}.

(** [JobSpec.DeepCopy] allocates a new struct with equal contents; values
    here are immutable, so the copy is the value. *)
Definition JobSpec_DeepCopy (s : JobSpec) : JobSpec := s.

Record Job := {
  ObjectMeta : metav1.ObjectMeta;
  Spec : JobSpec
}.

(** [batchv1.JobTemplateSpec] *)
Record JobTemplateSpec := {
  TemplateMeta : metav1.ObjectMeta;
  TemplateSpec : JobSpec
}.

End batchv1.

(** [equality.Semantic.DeepEqual] at type [batchv1.JobSpec]: the struct
    case of the walk, one field after the other. *)
Definition Semantic_DeepEqual (a b : batchv1.JobSpec) : bool :=
  ptrZ_equal (batchv1.Parallelism a) (batchv1.Parallelism b)
  && ptrZ_equal (batchv1.Completions a) (batchv1.Completions b)
  && ptrZ_equal (batchv1.ActiveDeadlineSeconds a)
                (batchv1.ActiveDeadlineSeconds b)
  && ptr_equal deepValueEqual (batchv1.PodFailurePolicy a)
               (batchv1.PodFailurePolicy b)
  && ptr_equal deepValueEqual (batchv1.SuccessPolicy a)
               (batchv1.SuccessPolicy b)
  && ptrZ_equal (batchv1.BackoffLimit a) (batchv1.BackoffLimit b)
  && ptrZ_equal (batchv1.BackoffLimitPerIndex a)
                (batchv1.BackoffLimitPerIndex b)
  && ptrZ_equal (batchv1.MaxFailedIndexes a) (batchv1.MaxFailedIndexes b)
  && ptr_equal deepValueEqual (batchv1.Selector a) (batchv1.Selector b)
  && ptrBool_equal (batchv1.ManualSelector a) (batchv1.ManualSelector b)
  && deepValueEqual (batchv1.Template a) (batchv1.Template b)
  && ptrZ_equal (batchv1.TTLSecondsAfterFinished a)
                (batchv1.TTLSecondsAfterFinished b)
  && ptrString_equal (batchv1.CompletionMode a) (batchv1.CompletionMode b)
  && ptrBool_equal (batchv1.Suspend a) (batchv1.Suspend b)
  && ptrString_equal (batchv1.PodReplacementPolicy a)
                     (batchv1.PodReplacementPolicy b)
  && ptrString_equal (batchv1.ManagedBy a) (batchv1.ManagedBy b).

(** The specs whose trees are reflections of Go values. *)
Definition wf_JobSpec (a : batchv1.JobSpec) : bool :=
  wf_ptr (batchv1.PodFailurePolicy a)
  && wf_ptr (batchv1.SuccessPolicy a)
  && wf_ptr (batchv1.Selector a)
  && wf_value (batchv1.Template a).



(** ** api/v1: the LeviathanBuild resource *)

Module jcrsv1.

(** [LeviathanBuildSpec] of api/v1/leviathanbuild_types.go.

    Modelled from the spec: the field [JobTemplate], which the controller
    reads ([lvBuild.Spec.JobTemplate.Spec], [.Labels], [.Annotations])
    and which the types file does not declare; the data model calls it
    an embedded job template (execution spec + labels/annotations). *)
Record LeviathanBuildSpec := {
  PackageName : option string;
  BuildType : string;
  SourceType : string;
  SourcePath : option string;
  SourceURL : option string;
  SuccessfulJobsHistoryLimit : option Z;
  FailedJobsHistoryLimit : option Z;
  JobTemplate : batchv1.JobTemplateSpec
}.

Definition Build : string := "Build".
Definition BuildPublish : string := "BuildPublish".
Definition Publish : string := "Publish".
Definition LocalSource : string := "Local".
Definition GitSource : string := "Git".
Definition S3Source : string := "S3".

Record LeviathanBuildStatus := {
  Active : list corev1.ObjectReference;
  LastJobTime : option GoTime.Time;
  Conditions : list metav1.Condition
}.

Record LeviathanBuild := {
  ObjectMeta : metav1.ObjectMeta;
  Spec : LeviathanBuildSpec;
  Status : LeviathanBuildStatus
}.

End jcrsv1.

(** The validation markers of api/v1/leviathanbuild_types.go, as the
    generated schema carries them: the values an enum admits, and the
    defaults filled in for fields left out. *)
Module markers.

(** [+kubebuilder:validation:Enum=Allow;Forbid;Replace] on [BuildType] *)
Definition BuildType_Enum : list string := ["Allow"; "Forbid"; "Replace"].

(** [+kubebuilder:default:=Build] on [BuildType BuildType] *)
Definition BuildType_Default : string := "Build".

(** [+kubebuilder:validation:Enum=Local;Git;S3] on [SourceType] *)
Definition SourceType_Enum : list string := ["Local"; "Git"; "S3"].

(** [+kubebuilder:default:=Build] on [SourceType SourceType] *)
Definition SourceType_Default : string := "Build".

(** An enum admits the values it lists. *)
Definition admits (enum : list string) (v : string) : bool :=
  existsb (String.eqb v) enum.

End markers.

(** ** Errors, requests and results *)

(** [metav1.StatusReason] *)
Inductive StatusReason :=
| StatusReasonUnknown
| StatusReasonUnauthorized
| StatusReasonForbidden
| StatusReasonNotFound
| StatusReasonAlreadyExists
| StatusReasonConflict
| StatusReasonInvalid
| StatusReasonServerTimeout
| StatusReasonTimeout
| StatusReasonInternalError
| StatusReasonServiceUnavailable.

(** A Go [error]: an API status error with its reason and HTTP code, or
    any other error. *)
Inductive error :=
| StatusError (reason : StatusReason) (code : Z) (message : string)
| OtherError (message : string).

Definition knownReason (r : StatusReason) : bool :=
  match r with StatusReasonUnknown => false | _ => true end.

(** [apierrors.IsNotFound] *)
Definition IsNotFound (err : error) : bool :=
  match err with
  | StatusError StatusReasonNotFound _ _ => true
  | StatusError r code _ => negb (knownReason r) && Z.eqb code 404
  | OtherError _ => false
  end.


(** [client.IgnoreNotFound] *)
Definition IgnoreNotFound (err : error) : option error :=
  if IsNotFound err then None else Some err.

(** [types.NamespacedName] *)
Definition NamespacedName : Type := string * string.

Definition key_of (m : metav1.ObjectMeta) : NamespacedName :=
  (metav1.Namespace m, metav1.Name m).

(** [ctrl.Result] *)
Record Result := {
  Requeue : bool;
  RequeueAfter : GoTime.Duration
}.

(** [ctrl.Result{}] *)
Definition Result_zero : Result := {| Requeue := false; RequeueAfter := 0 |}.

(** [ctrl.Result{RequeueAfter: time.Minute}] *)
Definition Result_after_minute : Result :=
  {| Requeue := false; RequeueAfter := GoTime.Minute |}.

(** ** controllerutil.SetControllerReference *)

(** What the reconciler's [*runtime.Scheme] answers for the LeviathanBuild
    type: [scheme.ObjectKinds(&LeviathanBuild{})]. *)
Record Scheme := { ObjectKinds_LeviathanBuild : list schema.GroupVersionKind }.

(** [apiutil.GVKForObject]: an error when the type is not registered or is
    registered under several kinds. *)
Definition GVKForObject (s : Scheme) : error + schema.GroupVersionKind :=
  match ObjectKinds_LeviathanBuild s with
  | [] => inl (OtherError "no kind is registered for the type v1.LeviathanBuild")
  | [gvk] => inr gvk
  | _ :: _ :: _ =>
      inl (OtherError "multiple group-version-kinds associated with type")
  end.

(** [validateOwner] *)
Definition validateOwner (owner object : metav1.ObjectMeta) : option error :=
  let ownerNs := metav1.Namespace owner in
  if negb (String.eqb ownerNs "") then
    let objNs := metav1.Namespace object in
    if String.eqb objNs "" then
      Some (OtherError "cluster-scoped resource must not have a namespace-scoped owner")
    else if negb (String.eqb ownerNs objNs) then
      Some (OtherError "cross-namespace owner references are disallowed")
    else None
  else None.

(** [strings.Split(s, "/")] *)
Fixpoint split_slash (s : string) : list string :=
  match s with
  | EmptyString => [EmptyString]
  | String c s' =>
      if Ascii.eqb c "/"%char then EmptyString :: split_slash s'
      else
        match split_slash s' with
        | [] => [String c EmptyString]
        | w :: ws => String c w :: ws
        end
  end.

(** [schema.ParseGroupVersion] *)
Definition ParseGroupVersion (gv : string) : option schema.GroupVersion :=
  if String.eqb gv "" || String.eqb gv "/" then
    Some {| schema.Group := ""; schema.Version := "" |}
  else
    match split_slash gv with
    | [v] => Some {| schema.Group := ""; schema.Version := v |}
    | [g; v] => Some {| schema.Group := g; schema.Version := v |}
    | _ => None
    end.

(** [referSameObject]: same group, kind and name. *)
Definition referSameObject (a b : metav1.OwnerReference) : bool :=
  match ParseGroupVersion (metav1.APIVersion a),
        ParseGroupVersion (metav1.APIVersion b) with
  | Some aGV, Some bGV =>
      String.eqb (schema.Group aGV) (schema.Group bGV)
      && String.eqb (metav1.Kind a) (metav1.Kind b)
      && String.eqb (metav1.RefName a) (metav1.RefName b)
  | _, _ => false
  end.

(** [upsertOwnerRef]: replace the reference to the same object, or append. *)
Fixpoint upsertOwnerRef (ref : metav1.OwnerReference)
  (refs : list metav1.OwnerReference) : list metav1.OwnerReference :=
  match refs with
  | [] => [ref]
  | r :: refs' =>
      if referSameObject r ref then ref :: refs'
      else r :: upsertOwnerRef ref refs'
  end.

Definition set_owner_references (refs : list metav1.OwnerReference)
  (m : metav1.ObjectMeta) : metav1.ObjectMeta :=
  {| metav1.Name := metav1.Name m;
     metav1.Namespace := metav1.Namespace m;
     metav1.UID := metav1.UID m;
     metav1.ResourceVersion := metav1.ResourceVersion m;
     metav1.CreationTimestamp := metav1.CreationTimestamp m;
     metav1.Labels := metav1.Labels m;
     metav1.Annotations := metav1.Annotations m;
     metav1.OwnerReferences := refs |}.

(** The reference [SetControllerReference] builds for an owner of kind
    [gvk]. *)
Definition controller_ref (gvk : schema.GroupVersionKind)
  (owner : metav1.ObjectMeta) : metav1.OwnerReference :=
  {| metav1.APIVersion :=
       schema.GroupVersion_String (schema.GVK_GroupVersion gvk);
     metav1.Kind := schema.GVKKind gvk;
     metav1.RefName := metav1.Name owner;
     metav1.RefUID := metav1.UID owner;
     metav1.BlockOwnerDeletion := Some true;
     metav1.Controller := Some true |}.

(** [controllerutil.SetControllerReference(owner, controlled, scheme)],
    with the controlled object's new metadata as the result. *)
Definition SetControllerReference (owner : metav1.ObjectMeta)
  (controlled : metav1.ObjectMeta) (s : Scheme) : error + metav1.ObjectMeta :=
  match validateOwner owner controlled with
  | Some err => inl err
  | None =>
      match GVKForObject s with
      | inl err => inl err
      | inr gvk =>
          let ref := controller_ref gvk owner in
          match metav1.GetControllerOf controlled with
          | Some existing =>
              if negb (referSameObject existing ref) then
                inl (OtherError "object is already owned by another controller")
              else
                inr (set_owner_references
                       (upsertOwnerRef ref (metav1.OwnerReferences controlled))
                       controlled)
          | None =>
              inr (set_owner_references
                     (upsertOwnerRef ref (metav1.OwnerReferences controlled))
                     controlled)
          end
      end
  end.

(** ** The client interface and the record of a pass *)

(** The calls a pass can issue through [client.Client]. *)
Inductive Call :=
| CallGetLeviathanBuild (key : NamespacedName)
| CallGetJob (key : NamespacedName)
| CallCreate (job : batchv1.Job)
| CallDelete (job : batchv1.Job)
| CallStatusUpdate (lvBuild : jcrsv1.LeviathanBuild).

Definition is_job_write (c : Call) : bool :=
  match c with
  | CallCreate _ | CallDelete _ => true
  | _ => false
  end.

Definition is_create (c : Call) : bool :=
  match c with CallCreate _ => true | _ => false end.

Definition is_delete (c : Call) : bool :=
  match c with CallDelete _ => true | _ => false end.


Definition is_write (c : Call) : bool :=
  match c with
  | CallCreate _ | CallDelete _ | CallStatusUpdate _ => true
  | _ => false
  end.

(** [client.Client] as the reconciler uses it, over a world [W] that the
    implementation is free to choose.  Every operation may fail. *)
Record Client (W : Type) := {
  GetLeviathanBuild : NamespacedName -> W -> (error + jcrsv1.LeviathanBuild) * W;
  GetJob : NamespacedName -> W -> (error + batchv1.Job) * W;
  Create : batchv1.Job -> W -> option error * W;
  Delete : batchv1.Job -> W -> option error * W;
  StatusUpdate : jcrsv1.LeviathanBuild -> W -> option error * W
}.

Arguments GetLeviathanBuild {W} _ _ _.
Arguments GetJob {W} _ _ _.
Arguments Create {W} _ _ _.
Arguments Delete {W} _ _ _.
Arguments StatusUpdate {W} _ _ _.

(** A computation over the world that also records the calls issued, in
    the order they were issued. *)
Definition Pass (W A : Type) : Type := W -> A * W * list Call.

Definition ret {W A} (a : A) : Pass W A := fun w => (a, w, []).

Definition bind {W A B} (m : Pass W A) (f : A -> Pass W B) : Pass W B :=
  fun w =>
    let '(a, w1, t1) := m w in
    let '(b, w2, t2) := f a w1 in
    (b, w2, (t1 ++ t2)%list).

Definition call {W A} (c : Call) (op : W -> A * W) : Pass W A :=
  fun w => let '(a, w') := op w in (a, w', [c]).

Declare Scope pass_scope.
Delimit Scope pass_scope with pass.
Notation "'do' x <- m ; k" := (bind m (fun x => k))
  (at level 10, x name, m at level 100, k at level 200) : pass_scope.

Definition outcome {W A} (r : A * W * list Call) : A := fst (fst r).
Definition final_world {W A} (r : A * W * list Call) : W := snd (fst r).
Definition calls {W A} (r : A * W * list Call) : list Call := snd r.

(** ** The reconciler *)

Section Reconciler.

Context {W : Type}.

(** [LeviathanBuildReconciler]: the embedded client and the scheme. *)
Variable r_Client : Client W.
Variable r_Scheme : Scheme.

(** [jobSpecsEqual] *)
Definition jobSpecsEqual (existing : batchv1.Job)
  (desired : batchv1.JobSpec) : bool :=
  Semantic_DeepEqual (batchv1.Spec existing) desired.

(** The two copy loops of the synthesizer: every pair of the template's
    map is stored into the fresh map. *)
Definition copy_into (src dst : gmap string string) : gmap string string :=
  map_fold (fun k v acc => <[k := v]> acc) dst src.

(** The closure [constructJobForLeviathanBuild] of [Reconcile]. *)
Definition constructJobForLeviathanBuild (lvBuild : jcrsv1.LeviathanBuild)
  : error + batchv1.Job :=
  let name :=
    Sprintf_s_d (metav1.Name (jcrsv1.ObjectMeta lvBuild))
                (GoTime.Unix GoTime.zero) in
  let template := jcrsv1.JobTemplate (jcrsv1.Spec lvBuild) in
  let meta :=
    {| metav1.Name := name;
       metav1.Namespace := metav1.Namespace (jcrsv1.ObjectMeta lvBuild);
       metav1.UID := "";
       metav1.ResourceVersion := "";
       metav1.CreationTimestamp := GoTime.zero;
       metav1.Labels :=
         copy_into (metav1.Labels (batchv1.TemplateMeta template)) ∅;
       metav1.Annotations :=
         copy_into (metav1.Annotations (batchv1.TemplateMeta template)) ∅;
       metav1.OwnerReferences := [] |} in
  let spec := batchv1.JobSpec_DeepCopy (batchv1.TemplateSpec template) in
  match SetControllerReference (jcrsv1.ObjectMeta lvBuild) meta r_Scheme with
  | inl err => inl err
  | inr meta' => inr {| batchv1.ObjectMeta := meta'; batchv1.Spec := spec |}
  end.

Local Open Scope pass_scope.

(** Synthesize, create, requeue.  [Reconcile] has this block twice, word
    for word: on the no-job path (lines 143-155) and after the delete on
    the mismatch path (lines 168-180). *)
Definition create_job (lvBuild : jcrsv1.LeviathanBuild)
  : Pass W (Result * option error) :=
  match constructJobForLeviathanBuild lvBuild with
  | inl _ =>
      (* don't bother requeuing until we get a change to the spec *)
      ret (Result_zero, None)
  | inr job =>
      do cerr <- call (CallCreate job) (Create r_Client job);
      match cerr with
      | Some err => ret (Result_zero, Some err)
      | None =>
          ret (Result_after_minute, None)
      end
  end.

(** [func (r *LeviathanBuildReconciler) Reconcile(ctx, req)] *)
Definition Reconcile (req : NamespacedName)
  : Pass W (Result * option error) :=
  do got <- call (CallGetLeviathanBuild req) (GetLeviathanBuild r_Client req);
  match got with
  | inl err =>
      if IsNotFound err then ret (Result_zero, None)
      else ret (Result_zero, IgnoreNotFound err)
  | inr lvBuild =>
      do gotJob <- call (CallGetJob req) (GetJob r_Client req);
      match gotJob with
      | inl err =>
          if IsNotFound err then create_job lvBuild
          else ret (Result_zero, Some err)
      | inr existingJob =>
          if negb (jobSpecsEqual existingJob
                     (batchv1.TemplateSpec
                        (jcrsv1.JobTemplate (jcrsv1.Spec lvBuild))))
          then
            do derr <- call (CallDelete existingJob)
                         (Delete r_Client existingJob);
            match derr with
            | Some err => ret (Result_zero, Some err)
            | None => create_job lvBuild
            end
          else
            do serr <- call (CallStatusUpdate lvBuild)
                         (StatusUpdate r_Client lvBuild);
            match serr with
            | Some err => ret (Result_zero, Some err)
            | None => ret (Result_zero, None)
            end
      end
  end.

End Reconciler.

(** [n] passes for one request, one after the other, as the dispatcher
    runs them when nothing else touches the world; the calls of all of
    them, in order. *)
Fixpoint passes {W : Type} (cl : Client W) (s : Scheme) (req : NamespacedName)
  (n : nat) (w : W) : W * list Call :=
  match n with
  | O => (w, [])
  | S n' =>
      let r := Reconcile cl s req w in
      let '(w', t) := passes cl s req n' (final_world r) in
      (w', (calls r ++ t)%list)
  end.

(** The sequences of calls a pass for [req] can issue, one per return
    statement of [Reconcile] that follows a different sequence. *)
Inductive pass_shape (req : NamespacedName) : list Call -> Prop :=
| shape_absent : pass_shape req [CallGetLeviathanBuild req]
| shape_read : pass_shape req [CallGetLeviathanBuild req; CallGetJob req]
| shape_create job :
    pass_shape req [CallGetLeviathanBuild req; CallGetJob req; CallCreate job]
| shape_delete existingJob :
    pass_shape req [CallGetLeviathanBuild req; CallGetJob req;
                    CallDelete existingJob]
| shape_replace existingJob job :
    pass_shape req [CallGetLeviathanBuild req; CallGetJob req;
                    CallDelete existingJob; CallCreate job]
| shape_status lvBuild :
    pass_shape req [CallGetLeviathanBuild req; CallGetJob req;
                    CallStatusUpdate lvBuild].

(** ** An in-memory cluster

    The API server as the controller sees it: objects are stored under
    their namespace and name; a read of a missing key is a NotFound status
    error, a create under a taken key is an AlreadyExists status error, a
    delete or status update of a missing object is NotFound.  A status
    update replaces the stored status and nothing else.  Objects are
    stored as they are sent. *)

Record Cluster := {
  builds : gmap NamespacedName jcrsv1.LeviathanBuild;
  jobs : gmap NamespacedName batchv1.Job
}.

Definition errNotFound : error :=
  StatusError StatusReasonNotFound 404 "not found".
Definition errAlreadyExists : error :=
  StatusError StatusReasonAlreadyExists 409 "already exists".

Definition set_jobs (js : gmap NamespacedName batchv1.Job) (c : Cluster)
  : Cluster :=
  {| builds := builds c; jobs := js |}.

Definition set_builds (bs : gmap NamespacedName jcrsv1.LeviathanBuild)
  (c : Cluster) : Cluster :=
  {| builds := bs; jobs := jobs c |}.

Definition cluster_get_build (key : NamespacedName) (c : Cluster)
  : (error + jcrsv1.LeviathanBuild) * Cluster :=
  match builds c !! key with
  | Some b => (inr b, c)
  | None => (inl errNotFound, c)
  end.

Definition cluster_get_job (key : NamespacedName) (c : Cluster)
  : (error + batchv1.Job) * Cluster :=
  match jobs c !! key with
  | Some j => (inr j, c)
  | None => (inl errNotFound, c)
  end.

Definition cluster_create (job : batchv1.Job) (c : Cluster)
  : option error * Cluster :=
  let key := key_of (batchv1.ObjectMeta job) in
  match jobs c !! key with
  | Some _ => (Some errAlreadyExists, c)
  | None => (None, set_jobs (<[key := job]> (jobs c)) c)
  end.

Definition cluster_delete (job : batchv1.Job) (c : Cluster)
  : option error * Cluster :=
  let key := key_of (batchv1.ObjectMeta job) in
  match jobs c !! key with
  | Some _ => (None, set_jobs (delete key (jobs c)) c)
  | None => (Some errNotFound, c)
  end.

Definition with_status (st : jcrsv1.LeviathanBuildStatus)
  (b : jcrsv1.LeviathanBuild) : jcrsv1.LeviathanBuild :=
  {| jcrsv1.ObjectMeta := jcrsv1.ObjectMeta b;
     jcrsv1.Spec := jcrsv1.Spec b;
     jcrsv1.Status := st |}.

Definition cluster_status_update (lvBuild : jcrsv1.LeviathanBuild)
  (c : Cluster) : option error * Cluster :=
  let key := key_of (jcrsv1.ObjectMeta lvBuild) in
  match builds c !! key with
  | Some stored =>
      (None,
       set_builds (<[key := with_status (jcrsv1.Status lvBuild) stored]>
                     (builds c)) c)
  | None => (Some errNotFound, c)
  end.

Definition clusterClient : Client Cluster :=
  {| GetLeviathanBuild := cluster_get_build;
     GetJob := cluster_get_job;
     Create := cluster_create;
     Delete := cluster_delete;
     StatusUpdate := cluster_status_update |}.

(** The in-memory cluster behind a plan of failures: a call that the plan
    names fails with the planned error and leaves the cluster alone, every
    other call is the cluster's. *)
Definition Faults : Type := Call -> option error.

Definition faultyClient : Client (Cluster * Faults) :=
  {| GetLeviathanBuild := fun key w =>
       match snd w (CallGetLeviathanBuild key) with
       | Some err => (inl err, w)
       | None => let '(r, c) := cluster_get_build key (fst w) in (r, (c, snd w))
       end;
     GetJob := fun key w =>
       match snd w (CallGetJob key) with
       | Some err => (inl err, w)
       | None => let '(r, c) := cluster_get_job key (fst w) in (r, (c, snd w))
       end;
     Create := fun job w =>
       match snd w (CallCreate job) with
       | Some err => (Some err, w)
       | None => let '(r, c) := cluster_create job (fst w) in (r, (c, snd w))
       end;
     Delete := fun job w =>
       match snd w (CallDelete job) with
       | Some err => (Some err, w)
       | None => let '(r, c) := cluster_delete job (fst w) in (r, (c, snd w))
       end;
     StatusUpdate := fun b w =>
       match snd w (CallStatusUpdate b) with
       | Some err => (Some err, w)
       | None =>
           let '(r, c) := cluster_status_update b (fst w) in (r, (c, snd w))
       end |}.

Definition errTimeout : error :=
  StatusError StatusReasonTimeout 504 "request timed out".
Definition errConflict : error :=
  StatusError StatusReasonConflict 409 "the object has been modified".

(** Objects sit under their own namespace and name. *)
Definition cluster_wf (c : Cluster) : Prop :=
  (forall k b, builds c !! k = Some b -> key_of (jcrsv1.ObjectMeta b) = k)
  /\ (forall k j, jobs c !! k = Some j -> key_of (batchv1.ObjectMeta j) = k).


(** A client is faithful to a cluster when its world has a view as a
    cluster on which reads return what is stored and leave the view alone,
    and a write that reports success is the write of the in-memory
    cluster.  Failures may be injected at will. *)
Class Faithful {W : Type} (cl : Client W) (view : W -> Cluster) : Prop := {
  get_build_view : forall k w, view (snd (GetLeviathanBuild cl k w)) = view w;
  get_build_found : forall k w b,
    fst (GetLeviathanBuild cl k w) = inr b -> builds (view w) !! k = Some b;
  get_job_view : forall k w, view (snd (GetJob cl k w)) = view w;
  get_job_found : forall k w j,
    fst (GetJob cl k w) = inr j -> jobs (view w) !! k = Some j;
  create_done : forall j w,
    fst (Create cl j w) = None ->
    cluster_create j (view w) = (None, view (snd (Create cl j w)));
  create_failed : forall j w err,
    fst (Create cl j w) = Some err -> view (snd (Create cl j w)) = view w;
  delete_done : forall j w,
    fst (Delete cl j w) = None ->
    view (snd (Delete cl j w)) =
      set_jobs (delete (key_of (batchv1.ObjectMeta j)) (jobs (view w))) (view w);
  delete_failed : forall j w err,
    fst (Delete cl j w) = Some err -> view (snd (Delete cl j w)) = view w;
  status_update_done : forall b w,
    fst (StatusUpdate cl b w) = None ->
    cluster_status_update b (view w) = (None, view (snd (StatusUpdate cl b w)));
  status_update_failed : forall b w err,
    fst (StatusUpdate cl b w) = Some err ->
    view (snd (StatusUpdate cl b w)) = view w
}.

(** ** The field index of [SetupWithManager] *)

Section FieldIndex.

(** [jcrsv1.GroupVersion], declared in api/v1/groupversion_info.go. *)
Variable GroupVersion : schema.GroupVersion.

Definition jobOwnerKey : string := ".metadata.controller".
Definition apiGVStr : string := schema.GroupVersion_String GroupVersion.

(** The extractor handed to [IndexField]; Go's nil slice is the empty
    list. *)
Definition indexJobOwner (rawObj : batchv1.Job) : list string :=
  let job := rawObj in
  match metav1.GetControllerOf (batchv1.ObjectMeta job) with
  | None => []
  | Some owner =>
      if negb (String.eqb (metav1.APIVersion owner) apiGVStr)
         || negb (String.eqb (metav1.Kind owner) "LeviathanBuild")
      then []
      else [metav1.RefName owner]
  end.

End FieldIndex.

(** ** Sample objects *)

Module Sample.

Definition gv : schema.GroupVersion :=
  {| schema.Group := "jcrs.jcrs.dev"; schema.Version := "v1" |}.

Definition gvk : schema.GroupVersionKind :=
  {| schema.GVKGroup := "jcrs.jcrs.dev";
     schema.GVKVersion := "v1";
     schema.GVKKind := "LeviathanBuild" |}.

(** A scheme that knows the LeviathanBuild type, and one that does not. *)
Definition scheme : Scheme := {| ObjectKinds_LeviathanBuild := [gvk] |}.
Definition bareScheme : Scheme := {| ObjectKinds_LeviathanBuild := [] |}.

(** A pod template with one container, its image and no arguments. *)
Definition podTemplate (image : string) : Value :=
  VStruct [VMap None; VStruct [VSlice (Some [VStruct [VString "build";
                                                       VString image;
                                                       VSlice None]]);
                               VString "Never"]].

Definition jobSpec (image : string) (backoff : option Z) : batchv1.JobSpec :=
  {| batchv1.Parallelism := None;
     batchv1.Completions := None;
     batchv1.ActiveDeadlineSeconds := None;
     batchv1.PodFailurePolicy := None;
     batchv1.SuccessPolicy := None;
     batchv1.BackoffLimit := backoff;
     batchv1.BackoffLimitPerIndex := None;
     batchv1.MaxFailedIndexes := None;
     batchv1.Selector := None;
     batchv1.ManualSelector := None;
     batchv1.Template := podTemplate image;
     batchv1.TTLSecondsAfterFinished := None;
     batchv1.CompletionMode := None;
     batchv1.Suspend := None;
     batchv1.PodReplacementPolicy := None;
     batchv1.ManagedBy := None |}.

Definition meta (ns name uid : string)
  (refs : list metav1.OwnerReference) : metav1.ObjectMeta :=
  {| metav1.Name := name;
     metav1.Namespace := ns;
     metav1.UID := uid;
     metav1.ResourceVersion := "1";
     metav1.CreationTimestamp := GoTime.zero;
     metav1.Labels := ∅;
     metav1.Annotations := ∅;
     metav1.OwnerReferences := refs |}.

Definition staleStatus : jcrsv1.LeviathanBuildStatus :=
  {| jcrsv1.Active := [];
     jcrsv1.LastJobTime := Some {| GoTime.wall := 0; GoTime.ext := 63000000000 |};
     jcrsv1.Conditions := [] |}.

Definition lvBuild : jcrsv1.LeviathanBuild :=
  {| jcrsv1.ObjectMeta := meta "default" "demo" "uid-1" [];
     jcrsv1.Spec :=
       {| jcrsv1.PackageName := Some "leviathan";
          jcrsv1.BuildType := jcrsv1.Build;
          jcrsv1.SourceType := jcrsv1.LocalSource;
          jcrsv1.SourcePath := None;
          jcrsv1.SourceURL := None;
          jcrsv1.SuccessfulJobsHistoryLimit := None;
          jcrsv1.FailedJobsHistoryLimit := None;
          jcrsv1.JobTemplate :=
            {| batchv1.TemplateMeta := meta "" "" "" [];
               batchv1.TemplateSpec := jobSpec "builder:2" None |} |};
     jcrsv1.Status := staleStatus |}.

Definition req : NamespacedName := ("default", "demo").

(** A job stored under the request key, as some other actor made it. *)
Definition jobAtKey (spec : batchv1.JobSpec) : batchv1.Job :=
  {| batchv1.ObjectMeta := meta "default" "demo" "uid-7" [];
     batchv1.Spec := spec |}.

Definition ownerRef (apiVersion kind name : string) (ctl : option bool)
  : metav1.OwnerReference :=
  {| metav1.APIVersion := apiVersion;
     metav1.Kind := kind;
     metav1.RefName := name;
     metav1.RefUID := "uid-1";
     metav1.Controller := ctl;
     metav1.BlockOwnerDeletion := Some true |}.

Definition ownedJob (refs : list metav1.OwnerReference) : batchv1.Job :=
  {| batchv1.ObjectMeta := meta "default" "demo--62135596800" "uid-9" refs;
     batchv1.Spec := jobSpec "builder:2" None |}.

(** The job the synthesizer makes for [lvBuild] under [scheme]. *)
Definition synthesized : batchv1.Job :=
  {| batchv1.ObjectMeta :=
       {| metav1.Name := "demo--62135596800";
          metav1.Namespace := "default";
          metav1.UID := "";
          metav1.ResourceVersion := "";
          metav1.CreationTimestamp := GoTime.zero;
          metav1.Labels := ∅;
          metav1.Annotations := ∅;
          metav1.OwnerReferences :=
            [ownerRef "jcrs.jcrs.dev/v1" "LeviathanBuild" "demo" (Some true)] |};
     batchv1.Spec := jobSpec "builder:2" None |}.

(** The same under a scheme that registers the resource as version v2. *)
Definition schemeV2 : Scheme :=
  {| ObjectKinds_LeviathanBuild :=
       [{| schema.GVKGroup := "jcrs.jcrs.dev";
           schema.GVKVersion := "v2";
           schema.GVKKind := "LeviathanBuild" |}] |}.

Definition synthesizedV2 : batchv1.Job :=
  {| batchv1.ObjectMeta :=
       {| metav1.Name := "demo--62135596800";
          metav1.Namespace := "default";
          metav1.UID := "";
          metav1.ResourceVersion := "";
          metav1.CreationTimestamp := GoTime.zero;
          metav1.Labels := ∅;
          metav1.Annotations := ∅;
          metav1.OwnerReferences :=
            [ownerRef "jcrs.jcrs.dev/v2" "LeviathanBuild" "demo" (Some true)] |};
     batchv1.Spec := jobSpec "builder:2" None |}.

(** The resource alone; with a matching job; with a stale job. *)
Definition noJob : Cluster :=
  {| builds := {[ req := lvBuild ]}; jobs := ∅ |}.
Definition matching : Cluster :=
  {| builds := {[ req := lvBuild ]};
     jobs := {[ req := jobAtKey (jobSpec "builder:2" None) ]} |}.
Definition mismatched : Cluster :=
  {| builds := {[ req := lvBuild ]};
     jobs := {[ req := jobAtKey (jobSpec "builder:1" None) ]} |}.


(** The resource and the synthesized job, under its own name. *)
Definition created : Cluster :=
  {| builds := {[ req := lvBuild ]};
     jobs := {[ ("default", "demo--62135596800") := synthesized ]} |}.

(** The resource alone again, the stale job deleted. *)
Definition emptied : Cluster :=
  {| builds := {[ req := lvBuild ]};
     jobs := delete req {[ req := jobAtKey (jobSpec "builder:1" None) ]} |}.

(** A second resource, in the same namespace, whose own name is the name
    the synthesizer gives the first one's job. *)
Definition namesake : jcrsv1.LeviathanBuild :=
  {| jcrsv1.ObjectMeta := meta "default" "demo--62135596800" "uid-2" [];
     jcrsv1.Spec := jcrsv1.Spec lvBuild;
     jcrsv1.Status := staleStatus |}.

Definition reqNamesake : NamespacedName := ("default", "demo--62135596800").

Definition twoResources : Cluster :=
  {| builds := {[ req := lvBuild; reqNamesake := namesake ]}; jobs := ∅ |}.

(** The job the synthesizer makes for [namesake] under [scheme]. *)
Definition synthesizedNamesake : batchv1.Job :=
  {| batchv1.ObjectMeta :=
       {| metav1.Name := "demo--62135596800--62135596800";
          metav1.Namespace := "default";
          metav1.UID := "";
          metav1.ResourceVersion := "";
          metav1.CreationTimestamp := GoTime.zero;
          metav1.Labels := ∅;
          metav1.Annotations := ∅;
          metav1.OwnerReferences :=
            [{| metav1.APIVersion := "jcrs.jcrs.dev/v1";
                metav1.Kind := "LeviathanBuild";
                metav1.RefName := "demo--62135596800";
                metav1.RefUID := "uid-2";
                metav1.Controller := Some true;
                metav1.BlockOwnerDeletion := Some true |}] |};
     batchv1.Spec := jobSpec "builder:2" None |}.

(** Plans of failures: every job read times out; every delete, every
    status update meets a conflict; none. *)
Definition jobReadsTimeOut : Faults :=
  fun c => match c with CallGetJob _ => Some errTimeout | _ => None end.
Definition deletesConflict : Faults :=
  fun c => match c with CallDelete _ => Some errConflict | _ => None end.
Definition statusUpdatesConflict : Faults :=
  fun c => match c with CallStatusUpdate _ => Some errConflict | _ => None end.
Definition noFaults : Faults := fun _ => None.


End Sample.

(** * Properties *)

(** ** Names *)

Lemma Unix_zero : GoTime.Unix GoTime.zero = -62135596800.
Proof. reflexivity. Qed.

Lemma Minute_nanoseconds : GoTime.Minute = 60000000000.
Proof. reflexivity. Qed.

Lemma Sprintf_zero_time (n : string) :
  Sprintf_s_d n (GoTime.Unix GoTime.zero) = n +:+ "--62135596800".
Proof.
  unfold Sprintf_s_d. f_equal.
Qed.

Lemma append_nonempty_ne (s t : string) : t <> "" -> s +:+ t <> s.
Proof.
  intros Ht. induction s as [|a s IH]; simpl.
  - exact Ht.
  - intros E. injection E as E. exact (IH E).
Qed.

Lemma job_name_ne (n : string) :
  Sprintf_s_d n (GoTime.Unix GoTime.zero) <> n.
Proof.
  rewrite Sprintf_zero_time. apply append_nonempty_ne. discriminate.
Qed.

(** ** The synthesizer *)

Lemma copy_into_empty (m : gmap string string) : copy_into m ∅ = m.
Proof.
  unfold copy_into.
  apply (map_fold_weak_ind (fun r m' => r = m')); [reflexivity|].
  intros i x m' r _ ->. reflexivity.
Qed.

Lemma validateOwner_same_namespace (owner object : metav1.ObjectMeta) :
  metav1.Namespace object = metav1.Namespace owner ->
  validateOwner owner object = None.
Proof.
  intros E. unfold validateOwner. rewrite E.
  destruct (String.eqb (metav1.Namespace owner) "") eqn:Ens; simpl.
  - reflexivity.
  - now rewrite String.eqb_refl.
Qed.

Section Synthesizer.

Variable s : Scheme.
Variable lvBuild : jcrsv1.LeviathanBuild.


(** What a successful synthesis returns. *)
Lemma construct_job (job : batchv1.Job) :
  constructJobForLeviathanBuild s lvBuild = inr job ->
  exists gvk,
    GVKForObject s = inr gvk
    /\ metav1.Name (batchv1.ObjectMeta job)
       = Sprintf_s_d (metav1.Name (jcrsv1.ObjectMeta lvBuild))
                     (GoTime.Unix GoTime.zero)
    /\ metav1.Namespace (batchv1.ObjectMeta job)
       = metav1.Namespace (jcrsv1.ObjectMeta lvBuild)
    /\ metav1.Labels (batchv1.ObjectMeta job)
       = metav1.Labels (batchv1.TemplateMeta
                        (jcrsv1.JobTemplate (jcrsv1.Spec lvBuild)))
    /\ metav1.Annotations (batchv1.ObjectMeta job)
       = metav1.Annotations (batchv1.TemplateMeta
                        (jcrsv1.JobTemplate (jcrsv1.Spec lvBuild)))
    /\ metav1.OwnerReferences (batchv1.ObjectMeta job)
       = [controller_ref gvk (jcrsv1.ObjectMeta lvBuild)]
    /\ batchv1.Spec job = batchv1.TemplateSpec
                           (jcrsv1.JobTemplate (jcrsv1.Spec lvBuild)).
Proof.
  unfold constructJobForLeviathanBuild, SetControllerReference.
  rewrite validateOwner_same_namespace by reflexivity.
  destruct (GVKForObject s) as [e|gvk]; simpl; [discriminate|].
  intros [= <-]. exists gvk. simpl.
  rewrite !copy_into_empty. repeat split; reflexivity.
Qed.

Lemma construct_job_key (job : batchv1.Job) :
  constructJobForLeviathanBuild s lvBuild = inr job ->
  key_of (batchv1.ObjectMeta job)
  = (metav1.Namespace (jcrsv1.ObjectMeta lvBuild),
     Sprintf_s_d (metav1.Name (jcrsv1.ObjectMeta lvBuild))
                 (GoTime.Unix GoTime.zero)).
Proof.
  intros H. destruct (construct_job job H) as (gvk & _ & Hn & Hns & _).
  unfold key_of. now rewrite Hn, Hns.
Qed.

End Synthesizer.

(** ** The paths of a pass *)

Section Paths.

Context {W : Type}.
Variable cl : Client W.
Variable s : Scheme.
Variable req : NamespacedName.

Lemma create_job_construct_error lvBuild err w :
  constructJobForLeviathanBuild s lvBuild = inl err ->
  create_job cl s lvBuild w = ((Result_zero, None), w, []).
Proof. intros H. unfold create_job. now rewrite H. Qed.

Lemma create_job_created lvBuild job w w' :
  constructJobForLeviathanBuild s lvBuild = inr job ->
  Create cl job w = (None, w') ->
  create_job cl s lvBuild w
  = ((Result_after_minute, None), w', [CallCreate job]).
Proof.
  intros H Hc. unfold create_job, bind, call, ret. now rewrite H, Hc.
Qed.

Lemma create_job_create_error lvBuild job err w w' :
  constructJobForLeviathanBuild s lvBuild = inr job ->
  Create cl job w = (Some err, w') ->
  create_job cl s lvBuild w = ((Result_zero, Some err), w', [CallCreate job]).
Proof.
  intros H Hc. unfold create_job, bind, call, ret. now rewrite H, Hc.
Qed.

(** The resource is gone: nothing but the first read. *)
Lemma Reconcile_absent err w w1 :
  GetLeviathanBuild cl req w = (inl err, w1) ->
  Reconcile cl s req w
  = ((Result_zero, IgnoreNotFound err), w1, [CallGetLeviathanBuild req]).
Proof.
  intros H. unfold Reconcile, bind, call, ret. rewrite H.
  unfold IgnoreNotFound. now destruct (IsNotFound err).
Qed.

(** The job read failed with something other than NotFound. *)
Lemma Reconcile_get_job_error lvBuild err w w1 w2 :
  GetLeviathanBuild cl req w = (inr lvBuild, w1) ->
  GetJob cl req w1 = (inl err, w2) ->
  IsNotFound err = false ->
  Reconcile cl s req w
  = ((Result_zero, Some err), w2,
     [CallGetLeviathanBuild req; CallGetJob req]).
Proof.
  intros H1 H2 H3. unfold Reconcile, bind, call, ret.
  now rewrite H1, H2, H3.
Qed.

(** No job under the request key: the pass continues as [create_job]. *)
Lemma Reconcile_no_job lvBuild err w w1 w2 :
  GetLeviathanBuild cl req w = (inr lvBuild, w1) ->
  GetJob cl req w1 = (inl err, w2) ->
  IsNotFound err = true ->
  Reconcile cl s req w
  = (outcome (create_job cl s lvBuild w2),
     final_world (create_job cl s lvBuild w2),
     [CallGetLeviathanBuild req; CallGetJob req]
       ++ calls (create_job cl s lvBuild w2))%list.
Proof.
  intros H1 H2 H3. unfold Reconcile, bind, call, ret.
  rewrite H1, H2, H3.
  now destruct (create_job cl s lvBuild w2) as [[o w'] t].
Qed.

(** A job with another spec: delete it, then continue as [create_job]. *)
Lemma Reconcile_mismatch_deleted lvBuild existingJob w w1 w2 w3 :
  GetLeviathanBuild cl req w = (inr lvBuild, w1) ->
  GetJob cl req w1 = (inr existingJob, w2) ->
  jobSpecsEqual existingJob
    (batchv1.TemplateSpec (jcrsv1.JobTemplate (jcrsv1.Spec lvBuild)))
  = false ->
  Delete cl existingJob w2 = (None, w3) ->
  Reconcile cl s req w
  = (outcome (create_job cl s lvBuild w3),
     final_world (create_job cl s lvBuild w3),
     [CallGetLeviathanBuild req; CallGetJob req; CallDelete existingJob]
       ++ calls (create_job cl s lvBuild w3))%list.
Proof.
  intros H1 H2 H3 H4. unfold Reconcile, bind, call, ret.
  rewrite H1, H2, H3. simpl. rewrite H4.
  now destruct (create_job cl s lvBuild w3) as [[o w'] t].
Qed.

Lemma Reconcile_mismatch_delete_error lvBuild existingJob err w w1 w2 w3 :
  GetLeviathanBuild cl req w = (inr lvBuild, w1) ->
  GetJob cl req w1 = (inr existingJob, w2) ->
  jobSpecsEqual existingJob
    (batchv1.TemplateSpec (jcrsv1.JobTemplate (jcrsv1.Spec lvBuild)))
  = false ->
  Delete cl existingJob w2 = (Some err, w3) ->
  Reconcile cl s req w
  = ((Result_zero, Some err), w3,
     [CallGetLeviathanBuild req; CallGetJob req; CallDelete existingJob]).
Proof.
  intros H1 H2 H3 H4. unfold Reconcile, bind, call, ret.
  rewrite H1, H2, H3. simpl. now rewrite H4.
Qed.

(** A job with the desired spec: the status step. *)
Lemma Reconcile_match lvBuild existingJob w w1 w2 :
  GetLeviathanBuild cl req w = (inr lvBuild, w1) ->
  GetJob cl req w1 = (inr existingJob, w2) ->
  jobSpecsEqual existingJob
    (batchv1.TemplateSpec (jcrsv1.JobTemplate (jcrsv1.Spec lvBuild)))
  = true ->
  Reconcile cl s req w
  = ((Result_zero, fst (StatusUpdate cl lvBuild w2)),
     snd (StatusUpdate cl lvBuild w2),
     [CallGetLeviathanBuild req; CallGetJob req; CallStatusUpdate lvBuild]).
Proof.
  intros H1 H2 H3. unfold Reconcile, bind, call, ret.
  rewrite H1, H2, H3. simpl.
  destruct (StatusUpdate cl lvBuild w2) as [[err|] w3]; reflexivity.
Qed.

(** The calls of [create_job]: none, or one create of the synthesized
    job. *)
Lemma create_job_calls lvBuild w :
  calls (create_job cl s lvBuild w) = []
  \/ exists job,
       constructJobForLeviathanBuild s lvBuild = inr job
       /\ calls (create_job cl s lvBuild w) = [CallCreate job].
Proof.
  unfold create_job, bind, call, ret.
  destruct (constructJobForLeviathanBuild s lvBuild) as [e|job]; [now left|].
  right. exists job. split; [reflexivity|].
  destruct (Create cl job w) as [[err|] w']; reflexivity.
Qed.

(** Every pass issues one of six sequences of calls. *)
Lemma Reconcile_shape w : pass_shape req (calls (Reconcile cl s req w)).
Proof.
  destruct (GetLeviathanBuild cl req w) as [[err|lvBuild] w1] eqn:H1.
  - rewrite (Reconcile_absent _ _ _ H1). constructor.
  - destruct (GetJob cl req w1) as [[err|existingJob] w2] eqn:H2.
    + destruct (IsNotFound err) eqn:H3.
      * rewrite (Reconcile_no_job _ _ _ _ _ H1 H2 H3). unfold calls at 1; simpl.
        destruct (create_job_calls lvBuild w2) as [->|(job & _ & ->)];
          constructor.
      * rewrite (Reconcile_get_job_error _ _ _ _ _ H1 H2 H3). constructor.
    + destruct (jobSpecsEqual existingJob
                  (batchv1.TemplateSpec
                     (jcrsv1.JobTemplate (jcrsv1.Spec lvBuild)))) eqn:H3.
      * rewrite (Reconcile_match _ _ _ _ _ H1 H2 H3). constructor.
      * destruct (Delete cl existingJob w2) as [[err|] w3] eqn:H4.
        -- rewrite (Reconcile_mismatch_delete_error _ _ _ _ _ _ _ H1 H2 H3 H4).
           constructor.
        -- rewrite (Reconcile_mismatch_deleted _ _ _ _ _ _ H1 H2 H3 H4).
           unfold calls at 1; simpl.
           destruct (create_job_calls lvBuild w3) as [->|(job & _ & ->)];
             constructor.
Qed.

End Paths.

(** ** Create when absent *)

(** C1, as amended.  When the resource exists, the read of the job under
    the request key reports NotFound, synthesis succeeds and the create
    call succeeds, the pass issues exactly one create, of the synthesized
    job, whose spec is the template's spec and whose only owner reference
    is a controller reference naming the resource; it returns a requeue
    after one minute and no error. *)
Theorem create_when_absent {W : Type} (cl : Client W) (s : Scheme)
  (req : NamespacedName) (lvBuild : jcrsv1.LeviathanBuild) (err : error)
  (job : batchv1.Job) (w w1 w2 w3 : W) :
  GetLeviathanBuild cl req w = (inr lvBuild, w1) ->
  GetJob cl req w1 = (inl err, w2) ->
  IsNotFound err = true ->
  constructJobForLeviathanBuild s lvBuild = inr job ->
  Create cl job w2 = (None, w3) ->
  Reconcile cl s req w
  = ((Result_after_minute, None), w3,
     [CallGetLeviathanBuild req; CallGetJob req; CallCreate job])
  /\ filter is_create (calls (Reconcile cl s req w)) = [CallCreate job]
  /\ batchv1.Spec job
     = batchv1.TemplateSpec (jcrsv1.JobTemplate (jcrsv1.Spec lvBuild))
  /\ (exists ref,
        metav1.OwnerReferences (batchv1.ObjectMeta job) = [ref]
        /\ metav1.RefName ref = metav1.Name (jcrsv1.ObjectMeta lvBuild)
        /\ metav1.RefUID ref = metav1.UID (jcrsv1.ObjectMeta lvBuild)
        /\ metav1.Controller ref = Some true)
  /\ RequeueAfter Result_after_minute = 60000000000.
Proof.
  intros Hb Hj Hnf Hc Hcr.
  assert (Hrun : Reconcile cl s req w
                 = ((Result_after_minute, None), w3,
                    [CallGetLeviathanBuild req; CallGetJob req; CallCreate job])).
  { rewrite (Reconcile_no_job cl s req _ _ _ _ _ Hb Hj Hnf).
    now rewrite (create_job_created cl s _ _ _ _ Hc Hcr). }
  destruct (construct_job s lvBuild job Hc)
    as (gvk & _ & _ & _ & _ & _ & Hrefs & Hspec).
  split; [exact Hrun|]. split; [now rewrite Hrun|].
  split; [exact Hspec|]. split; [|reflexivity].
  exists (controller_ref gvk (jcrsv1.ObjectMeta lvBuild)).
  repeat split; assumption || reflexivity.
Qed.

Lemma create_when_absent_witness :
  Reconcile clusterClient Sample.scheme Sample.req Sample.noJob
  = ((Result_after_minute, None), Sample.created,
     [CallGetLeviathanBuild Sample.req; CallGetJob Sample.req;
      CallCreate Sample.synthesized]).
Proof.
  apply (create_when_absent clusterClient Sample.scheme Sample.req
           Sample.lvBuild errNotFound Sample.synthesized
           Sample.noJob Sample.noJob Sample.noJob Sample.created);
    vm_compute; reflexivity.
Defined.

(** The claim of C1 read without the two provisos fails.  In the cluster
    that a first pass leaves behind the resource exists and the job read
    under the request key reports NotFound, yet the pass returns the
    create's error and asks for no requeue.  And with a scheme that does
    not know the resource's kind the pass over the resource alone creates
    nothing and asks for no requeue. *)
Lemma create_when_absent_needs_success :
  (fst (GetLeviathanBuild clusterClient Sample.req Sample.created)
   = inr Sample.lvBuild
   /\ fst (GetJob clusterClient Sample.req Sample.created) = inl errNotFound
   /\ IsNotFound errNotFound = true
   /\ outcome (Reconcile clusterClient Sample.scheme Sample.req
                 Sample.created) = (Result_zero, Some errAlreadyExists))
  /\ (fst (GetLeviathanBuild clusterClient Sample.req Sample.noJob)
      = inr Sample.lvBuild
      /\ fst (GetJob clusterClient Sample.req Sample.noJob) = inl errNotFound
      /\ filter is_create
           (calls (Reconcile clusterClient Sample.bareScheme Sample.req
                     Sample.noJob)) = []
      /\ outcome (Reconcile clusterClient Sample.bareScheme Sample.req
                    Sample.noJob) = (Result_zero, None)).
Proof. vm_compute. repeat split; reflexivity. Qed.

(** ** No-op when matching *)

(** C3.  When the job read under the request key returns a job whose spec
    the comparator finds equal to the template's spec, the pass issues no
    create and no delete (the client has no other job write), and its only
    write is one status update of the resource. *)
Theorem noop_when_matching {W : Type} (cl : Client W) (s : Scheme)
  (req : NamespacedName) (lvBuild : jcrsv1.LeviathanBuild)
  (existingJob : batchv1.Job) (w w1 w2 : W) :
  GetLeviathanBuild cl req w = (inr lvBuild, w1) ->
  GetJob cl req w1 = (inr existingJob, w2) ->
  jobSpecsEqual existingJob
    (batchv1.TemplateSpec (jcrsv1.JobTemplate (jcrsv1.Spec lvBuild))) = true ->
  calls (Reconcile cl s req w)
  = [CallGetLeviathanBuild req; CallGetJob req; CallStatusUpdate lvBuild]
  /\ filter is_job_write (calls (Reconcile cl s req w)) = []
  /\ filter is_write (calls (Reconcile cl s req w))
     = [CallStatusUpdate lvBuild].
Proof.
  intros Hb Hj Heq.
  rewrite (Reconcile_match cl s req _ _ _ _ _ Hb Hj Heq).
  repeat split; reflexivity.
Qed.

Lemma noop_when_matching_witness :
  calls (Reconcile clusterClient Sample.scheme Sample.req Sample.matching)
  = [CallGetLeviathanBuild Sample.req; CallGetJob Sample.req;
     CallStatusUpdate Sample.lvBuild].
Proof.
  apply (noop_when_matching clusterClient Sample.scheme Sample.req
           Sample.lvBuild (Sample.jobAtKey (Sample.jobSpec "builder:2" None))
           Sample.matching Sample.matching Sample.matching);
    vm_compute; reflexivity.
Defined.

(** ** The status step *)






(** X7.  What the status step writes is the resource as the first read
    returned it, stored status included: the pass computes no status of
    its own. *)
Lemma status_step_writes_what_was_read {W : Type} (cl : Client W)
  (s : Scheme) (req : NamespacedName) (w : W) (b : jcrsv1.LeviathanBuild) :
  In (CallStatusUpdate b) (calls (Reconcile cl s req w)) ->
  fst (GetLeviathanBuild cl req w) = inr b.
Proof.
  destruct (GetLeviathanBuild cl req w) as [[err|lvBuild] w1] eqn:H1.
  - rewrite (Reconcile_absent cl s req _ _ _ H1). simpl. intros [|[]]. discriminate.
  - destruct (GetJob cl req w1) as [[err|existingJob] w2] eqn:H2.
    + destruct (IsNotFound err) eqn:H3.
      * rewrite (Reconcile_no_job cl s req _ _ _ _ _ H1 H2 H3).
        unfold calls at 1; simpl.
        destruct (create_job_calls cl s lvBuild w2) as [->|(job & _ & ->)];
          simpl; intuition discriminate.
      * rewrite (Reconcile_get_job_error cl s req _ _ _ _ _ H1 H2 H3).
        simpl; intuition discriminate.
    + destruct (jobSpecsEqual existingJob
                  (batchv1.TemplateSpec
                     (jcrsv1.JobTemplate (jcrsv1.Spec lvBuild)))) eqn:H3.
      * rewrite (Reconcile_match cl s req _ _ _ _ _ H1 H2 H3). simpl.
        intros [|[|[E|[]]]]; try discriminate. now injection E as ->.
      * destruct (Delete cl existingJob w2) as [[err|] w3] eqn:H4.
        -- rewrite (Reconcile_mismatch_delete_error cl s req _ _ _ _ _ _ _
                      H1 H2 H3 H4).
           simpl; intuition discriminate.
        -- rewrite (Reconcile_mismatch_deleted cl s req _ _ _ _ _ _ H1 H2 H3 H4).
           unfold calls at 1; simpl.
           destruct (create_job_calls cl s lvBuild w3) as [->|(job & _ & ->)];
             simpl; intuition discriminate.
Qed.

(** ** Failures of create and of synthesis *)




(** C8.  When synthesis returns an error, the pass ends there with the
    zero result and no error: on the no-job path after the two reads, on
    the mismatch path after the delete, and in both with no further
    call. *)
Theorem construction_error_ends_pass {W : Type} (cl : Client W) (s : Scheme)
  (req : NamespacedName) (lvBuild : jcrsv1.LeviathanBuild)
  (cerr : error) (w w1 : W) :
  GetLeviathanBuild cl req w = (inr lvBuild, w1) ->
  constructJobForLeviathanBuild s lvBuild = inl cerr ->
  (forall err w2,
      GetJob cl req w1 = (inl err, w2) ->
      IsNotFound err = true ->
      Reconcile cl s req w
      = ((Result_zero, None), w2,
         [CallGetLeviathanBuild req; CallGetJob req]))
  /\ (forall existingJob w2 w3,
        GetJob cl req w1 = (inr existingJob, w2) ->
        jobSpecsEqual existingJob
          (batchv1.TemplateSpec (jcrsv1.JobTemplate (jcrsv1.Spec lvBuild)))
        = false ->
        Delete cl existingJob w2 = (None, w3) ->
        Reconcile cl s req w
        = ((Result_zero, None), w3,
           [CallGetLeviathanBuild req; CallGetJob req;
            CallDelete existingJob])).
Proof.
  intros Hb Hc. split.
  - intros err w2 Hj Hnf.
    rewrite (Reconcile_no_job cl s req _ _ _ _ _ Hb Hj Hnf).
    now rewrite (create_job_construct_error cl s _ _ _ Hc).
  - intros existingJob w2 w3 Hj Hne Hd.
    rewrite (Reconcile_mismatch_deleted cl s req _ _ _ _ _ _ Hb Hj Hne Hd).
    now rewrite (create_job_construct_error cl s _ _ _ Hc).
Qed.

Lemma construction_error_ends_pass_witness :
  Reconcile clusterClient Sample.bareScheme Sample.req Sample.noJob
  = ((Result_zero, None), Sample.noJob,
     [CallGetLeviathanBuild Sample.req; CallGetJob Sample.req])
  /\ Reconcile clusterClient Sample.bareScheme Sample.req Sample.mismatched
     = ((Result_zero, None), Sample.emptied,
        [CallGetLeviathanBuild Sample.req; CallGetJob Sample.req;
         CallDelete (Sample.jobAtKey (Sample.jobSpec "builder:1" None))]).
Proof.
  split.
  - apply (proj1 (construction_error_ends_pass clusterClient
                    Sample.bareScheme Sample.req Sample.lvBuild
                    (OtherError
                       "no kind is registered for the type v1.LeviathanBuild")
                    Sample.noJob Sample.noJob
                    ltac:(vm_compute; reflexivity)
                    ltac:(vm_compute; reflexivity))
             errNotFound Sample.noJob);
      vm_compute; reflexivity.
  - apply (proj2 (construction_error_ends_pass clusterClient
                    Sample.bareScheme Sample.req Sample.lvBuild
                    (OtherError
                       "no kind is registered for the type v1.LeviathanBuild")
                    Sample.mismatched Sample.mismatched
                    ltac:(vm_compute; reflexivity)
                    ltac:(vm_compute; reflexivity))
             (Sample.jobAtKey (Sample.jobSpec "builder:1" None))
             Sample.mismatched Sample.emptied);
      vm_compute; reflexivity.
Defined.

(** ** Passes over a cluster *)


Section OverACluster.

Context {W : Type} (cl : Client W) (view : W -> Cluster).
Context `{!Faithful cl view}.
Variable s : Scheme.
Variable req : NamespacedName.

Lemma get_build_at w w1 lvBuild :
  GetLeviathanBuild cl req w = (inr lvBuild, w1) ->
  view w1 = view w /\ builds (view w) !! req = Some lvBuild.
Proof.
  intros H. split.
  - now rewrite <- (get_build_view (cl:=cl) (view:=view) req w), H.
  - apply (get_build_found (cl:=cl) (view:=view)). now rewrite H.
Qed.

Lemma get_job_at w w1 r :
  GetJob cl req w = (r, w1) ->
  view w1 = view w
  /\ forall j, r = inr j -> jobs (view w) !! req = Some j.
Proof.
  intros H. split.
  - now rewrite <- (get_job_view (cl:=cl) (view:=view) req w), H.
  - intros j ->. apply (get_job_found (cl:=cl) (view:=view)). now rewrite H.
Qed.

Lemma create_at job w w1 :
  Create cl job w = (None, w1) ->
  jobs (view w) !! key_of (batchv1.ObjectMeta job) = None
  /\ jobs (view w1)
     = <[key_of (batchv1.ObjectMeta job) := job]> (jobs (view w)).
Proof.
  intros H. pose proof (create_done (cl:=cl) (view:=view) job w) as Hd. rewrite H in Hd.
  specialize (Hd eq_refl). simpl in Hd. unfold cluster_create in Hd.
  destruct (jobs (view w) !! key_of (batchv1.ObjectMeta job)); [discriminate|].
  injection Hd as Hd. split; [reflexivity|]. now rewrite <- Hd.
Qed.

Lemma create_error_at job err w w1 :
  Create cl job w = (Some err, w1) -> view w1 = view w.
Proof.
  intros H. pose proof (create_failed (cl:=cl) (view:=view) job w err) as Hd. rewrite H in Hd.
  exact (Hd eq_refl).
Qed.


(** The synthesized job's key is never the key the resource was read
    under. *)
Lemma synthesized_key_ne w lvBuild job :
  cluster_wf (view w) ->
  builds (view w) !! req = Some lvBuild ->
  constructJobForLeviathanBuild s lvBuild = inr job ->
  key_of (batchv1.ObjectMeta job)
  = (fst req, Sprintf_s_d (snd req) (GoTime.Unix GoTime.zero))
  /\ key_of (batchv1.ObjectMeta job) <> req.
Proof.
  intros [Hwf _] Hb Hc. specialize (Hwf _ _ Hb).
  rewrite (construct_job_key s lvBuild job Hc).
  unfold key_of in Hwf. rewrite <- Hwf. simpl. split; [reflexivity|].
  intros [= E]. exact (job_name_ne _ E).
Qed.

(** The job [create_job] creates is the one the synthesizer returns. *)
Lemma create_job_creates lvBuild w job :
  In (CallCreate job) (calls (create_job cl s lvBuild w)) ->
  constructJobForLeviathanBuild s lvBuild = inr job.
Proof.
  destruct (create_job_calls cl s lvBuild w) as [->|(job' & Hc & ->)]; simpl.
  - intros [].
  - intros [[= <-]|[]]. exact Hc.
Qed.

(** A pass leaves the jobs under keys other than the two it may write
    alone, and never puts a job under the request key. *)
Lemma create_job_jobs_at_req lvBuild w :
  cluster_wf (view w) ->
  builds (view w) !! req = Some lvBuild ->
  jobs (view (final_world (create_job cl s lvBuild w))) !! req
  = jobs (view w) !! req.
Proof.
  intros Hwf Hb. unfold create_job, bind, call, ret.
  destruct (constructJobForLeviathanBuild s lvBuild) as [e|job] eqn:Hc;
    [reflexivity|].
  destruct (Create cl job w) as [[err|] w'] eqn:Hcr; unfold final_world; simpl.
  - now rewrite (create_error_at _ _ _ _ Hcr).
  - destruct (create_at _ _ _ Hcr) as [_ ->].
    destruct (synthesized_key_ne w lvBuild job Hwf Hb Hc) as [_ Hne].
    now rewrite lookup_insert_ne.
Qed.

(** Every create of a pass is of the job synthesized from the resource
    the pass read. *)
Lemma created_job_synthesized w job :
  In (CallCreate job) (calls (Reconcile cl s req w)) ->
  exists lvBuild,
    fst (GetLeviathanBuild cl req w) = inr lvBuild
    /\ constructJobForLeviathanBuild s lvBuild = inr job.
Proof.
  destruct (GetLeviathanBuild cl req w) as [[err|lvBuild] w1] eqn:H1.
  - rewrite (Reconcile_absent cl s req _ _ _ H1). simpl.
    intuition discriminate.
  - destruct (GetJob cl req w1) as [[err|existingJob] w2] eqn:H2.
    + destruct (IsNotFound err) eqn:H3.
      * rewrite (Reconcile_no_job cl s req _ _ _ _ _ H1 H2 H3).
        unfold calls at 1; simpl. intros [|[|Hin]]; try discriminate.
        exists lvBuild. split; [reflexivity|].
        exact (create_job_creates _ _ _ Hin).
      * rewrite (Reconcile_get_job_error cl s req _ _ _ _ _ H1 H2 H3).
        simpl; intuition discriminate.
    + destruct (jobSpecsEqual existingJob
                  (batchv1.TemplateSpec
                     (jcrsv1.JobTemplate (jcrsv1.Spec lvBuild)))) eqn:H3.
      * rewrite (Reconcile_match cl s req _ _ _ _ _ H1 H2 H3). simpl.
        intuition discriminate.
      * destruct (Delete cl existingJob w2) as [[err|] w3] eqn:H4.
        -- rewrite (Reconcile_mismatch_delete_error cl s req _ _ _ _ _ _ _
                      H1 H2 H3 H4).
           simpl; intuition discriminate.
        -- rewrite (Reconcile_mismatch_deleted cl s req _ _ _ _ _ _ H1 H2 H3 H4).
           unfold calls at 1; simpl. intros [|[|[|Hin]]]; try discriminate.
           exists lvBuild. split; [reflexivity|].
           exact (create_job_creates _ _ _ Hin).
Qed.



End OverACluster.

(** ** Replace on mismatch *)




(** ** Names of synthesized jobs *)



(** The statement is about one resource.  A pass for another resource
    whose own name is the synthesized name does read the job, and here
    finds it matching. *)
Lemma namesake_reads_the_job :
  calls (Reconcile clusterClient Sample.scheme Sample.reqNamesake
           (final_world (Reconcile clusterClient Sample.scheme Sample.req
                           Sample.twoResources)))
  = [CallGetLeviathanBuild Sample.reqNamesake; CallGetJob Sample.reqNamesake;
     CallStatusUpdate Sample.namesake]
  /\ fst (GetJob clusterClient Sample.reqNamesake
            (final_world (Reconcile clusterClient Sample.scheme Sample.req
                            Sample.twoResources)))
     = inr Sample.synthesized.
Proof. vm_compute. split; reflexivity. Qed.

(** C10.  Two syntheses from resources of one name give jobs of one name,
    whatever else differs; and whatever the client and the world a pass
    runs in, and so whenever it runs, the job it creates is named by the
    resource's name followed by the fixed suffix that the zero time
    gives. *)
Theorem job_name_is_fixed :
  (forall (s1 s2 : Scheme) (b1 b2 : jcrsv1.LeviathanBuild)
          (j1 j2 : batchv1.Job),
      metav1.Name (jcrsv1.ObjectMeta b1) = metav1.Name (jcrsv1.ObjectMeta b2) ->
      constructJobForLeviathanBuild s1 b1 = inr j1 ->
      constructJobForLeviathanBuild s2 b2 = inr j2 ->
      metav1.Name (batchv1.ObjectMeta j1) = metav1.Name (batchv1.ObjectMeta j2))
  /\ (forall (W : Type) (cl : Client W) (s : Scheme) (req : NamespacedName)
             (w : W) (job : batchv1.Job),
        In (CallCreate job) (calls (Reconcile cl s req w)) ->
        exists lvBuild,
          fst (GetLeviathanBuild cl req w) = inr lvBuild
          /\ metav1.Name (batchv1.ObjectMeta job)
             = metav1.Name (jcrsv1.ObjectMeta lvBuild) +:+ "--62135596800").
Proof.
  split.
  - intros s1 s2 b1 b2 j1 j2 Hn H1 H2.
    destruct (construct_job s1 b1 j1 H1) as (_ & _ & -> & _).
    destruct (construct_job s2 b2 j2 H2) as (_ & _ & -> & _).
    now rewrite Hn.
  - intros W cl s req w job Hin.
    destruct (created_job_synthesized cl s req w job Hin) as (lvBuild & Hb & Hc).
    exists lvBuild. split; [exact Hb|].
    destruct (construct_job s lvBuild job Hc) as (_ & _ & -> & _).
    apply Sprintf_zero_time.
Qed.

Lemma job_name_is_fixed_witness :
  metav1.Name (batchv1.ObjectMeta Sample.synthesized)
  = metav1.Name (batchv1.ObjectMeta Sample.synthesizedV2)
  /\ exists lvBuild,
       fst (GetLeviathanBuild clusterClient Sample.req Sample.noJob)
       = inr lvBuild
       /\ metav1.Name (batchv1.ObjectMeta Sample.synthesized)
          = metav1.Name (jcrsv1.ObjectMeta lvBuild) +:+ "--62135596800".
Proof.
  split.
  - apply (proj1 job_name_is_fixed Sample.scheme Sample.schemeV2
             Sample.lvBuild
             (with_status {| jcrsv1.Active := []; jcrsv1.LastJobTime := None;
                             jcrsv1.Conditions := [] |} Sample.lvBuild)
             Sample.synthesized Sample.synthesizedV2);
      vm_compute; reflexivity.
  - apply (proj2 job_name_is_fixed Cluster clusterClient Sample.scheme
             Sample.req Sample.noJob Sample.synthesized).
    vm_compute. auto.
Defined.

(** ** The field index *)

Lemma GetControllerOfRefs_Some refs owner :
  metav1.GetControllerOfRefs refs = Some owner ->
  In owner refs /\ metav1.Controller owner = Some true.
Proof.
  induction refs as [|r refs IH]; simpl; [discriminate|].
  destruct (metav1.Controller r) as [[|]|] eqn:Hc.
  - intros [= <-]. auto.
  - intros H. destruct (IH H). auto.
  - intros H. destruct (IH H). auto.
Qed.

Lemma GetControllerOfRefs_None refs :
  metav1.GetControllerOfRefs refs = None <->
  (forall r, In r refs -> metav1.Controller r <> Some true).
Proof.
  induction refs as [|r refs IH]; simpl.
  - split; [intros _ r []|reflexivity].
  - destruct (metav1.Controller r) as [[|]|] eqn:Hc.
    + split; [discriminate|]. intros H. now destruct (H r (or_introl eq_refl)).
    + rewrite IH. split.
      * intros H r' [<-|Hin]; [congruence|auto].
      * intros H r' Hin. apply H. now right.
    + rewrite IH. split.
      * intros H r' [<-|Hin]; [congruence|auto].
      * intros H r' Hin. apply H. now right.
Qed.

(** C9.  The extractor returns the one-element list of the controller
    owner's name exactly when the job has a controller owner whose API
    version is the resource type's group-version string and whose kind is
    LeviathanBuild; for a job without a controller owner, or with one of
    another API version or kind, it returns the empty list; it returns
    nothing else, and never an error. *)
Theorem index_extractor (gv : schema.GroupVersion) (job : batchv1.Job) :
  (forall n,
      indexJobOwner gv job = [n] <->
      exists owner,
        metav1.GetControllerOf (batchv1.ObjectMeta job) = Some owner
        /\ metav1.APIVersion owner = apiGVStr gv
        /\ metav1.Kind owner = "LeviathanBuild"
        /\ metav1.RefName owner = n)
  /\ ((forall r, In r (metav1.OwnerReferences (batchv1.ObjectMeta job)) ->
                 metav1.Controller r <> Some true) ->
      indexJobOwner gv job = [])
  /\ (forall owner,
        metav1.GetControllerOf (batchv1.ObjectMeta job) = Some owner ->
        metav1.APIVersion owner <> apiGVStr gv
        \/ metav1.Kind owner <> "LeviathanBuild" ->
        indexJobOwner gv job = [])
  /\ (indexJobOwner gv job = [] \/ exists n, indexJobOwner gv job = [n]).
Proof.
  unfold indexJobOwner.
  split; [|split; [|split]].
  - intros n.
    destruct (metav1.GetControllerOf (batchv1.ObjectMeta job)) as [owner|].
    + destruct (String.eqb_spec (metav1.APIVersion owner) (apiGVStr gv))
        as [Ha|Ha];
        destruct (String.eqb_spec (metav1.Kind owner) "LeviathanBuild")
          as [Hk|Hk]; simpl.
      * split.
        -- intros [= <-]. now exists owner.
        -- now intros (o & [= <-] & _ & _ & <-).
      * split; [discriminate|]. intros (o & [= <-] & _ & Hk' & _). congruence.
      * split; [discriminate|]. intros (o & [= <-] & Ha' & _). congruence.
      * split; [discriminate|]. intros (o & [= <-] & Ha' & _). congruence.
    + split; [discriminate|]. now intros (o & [=] & _).
  - intros Hno. apply GetControllerOfRefs_None in Hno.
    unfold metav1.GetControllerOf. now rewrite Hno.
  - intros owner -> [Ha|Hk].
    + apply String.eqb_neq in Ha. now rewrite Ha.
    + apply String.eqb_neq in Hk. rewrite Hk. now rewrite orb_true_r.
  - destruct (metav1.GetControllerOf (batchv1.ObjectMeta job)) as [owner|];
      [|now left].
    destruct (negb _ || negb _); [now left|right; eauto].
Qed.

Lemma index_extractor_witness :
  indexJobOwner Sample.gv Sample.synthesized = ["demo"]
  /\ indexJobOwner Sample.gv (Sample.ownedJob []) = []
  /\ indexJobOwner Sample.gv
       (Sample.ownedJob [Sample.ownerRef "batch/v1" "CronJob" "demo" (Some true)])
     = [].
Proof.
  split; [|split].
  - apply (proj1 (index_extractor Sample.gv Sample.synthesized)).
    exists (Sample.ownerRef "jcrs.jcrs.dev/v1" "LeviathanBuild" "demo" (Some true)).
    repeat split; reflexivity.
  - apply (proj1 (proj2 (index_extractor Sample.gv (Sample.ownedJob [])))).
    intros r [].
  - apply (proj1 (proj2 (proj2 (index_extractor Sample.gv
             (Sample.ownedJob
                [Sample.ownerRef "batch/v1" "CronJob" "demo" (Some true)]))))
             (Sample.ownerRef "batch/v1" "CronJob" "demo" (Some true)));
      [reflexivity|left; discriminate].
Defined.

(** X10.  A job the synthesizer made under a scheme that registers the
    resource under [gv] and kind LeviathanBuild is indexed under the
    resource's name. *)
Lemma synthesized_job_is_indexed (gv : schema.GroupVersion) (s : Scheme)
  (lvBuild : jcrsv1.LeviathanBuild) (job : batchv1.Job) :
  ObjectKinds_LeviathanBuild s
  = [{| schema.GVKGroup := schema.Group gv;
        schema.GVKVersion := schema.Version gv;
        schema.GVKKind := "LeviathanBuild" |}] ->
  constructJobForLeviathanBuild s lvBuild = inr job ->
  indexJobOwner gv job = [metav1.Name (jcrsv1.ObjectMeta lvBuild)].
Proof.
  intros Hs Hc.
  destruct (construct_job s lvBuild job Hc) as (gvk & Hg & _ & _ & _ & _ & Hr & _).
  unfold GVKForObject in Hg. rewrite Hs in Hg. injection Hg as <-.
  unfold indexJobOwner, metav1.GetControllerOf. rewrite Hr. simpl.
  unfold apiGVStr, schema.GVK_GroupVersion. simpl.
  destruct gv as [g v]; simpl. now rewrite !String.eqb_refl.
Qed.

(** ** The comparator *)

Lemma ptrZ_equal_refl p : ptrZ_equal p p = true.
Proof. destruct p; simpl; [apply Z.eqb_refl|reflexivity]. Qed.

Lemma ptrBool_equal_refl p : ptrBool_equal p p = true.
Proof. destruct p as [[|]|]; reflexivity. Qed.

Lemma ptrString_equal_refl p : ptrString_equal p p = true.
Proof. destruct p; simpl; [apply String.eqb_refl|reflexivity]. Qed.





Lemma all2_refl (l : list Value) :
  Forall (fun v => wf_value v = true -> deepValueEqual v v = true) l ->
  forallb wf_value l = true ->
  all2 deepValueEqual l l = true.
Proof.
  induction 1 as [|v l Hv _ IH]; simpl; [reflexivity|].
  intros [Hw Hl]%andb_prop. now rewrite (Hv Hw), (IH Hl).
Qed.

Lemma assoc_lookup_first {A} (m : list (string * A)) k a :
  no_dup_keys (map fst m) = true ->
  In (k, a) m ->
  assoc_lookup k m = Some a.
Proof.
  induction m as [|[k' a'] m IH]; simpl; [intros _ []|].
  intros [Hfresh Hnd]%andb_prop [[= -> ->]|Hin].
  - now rewrite String.eqb_refl.
  - destruct (String.eqb_spec k k') as [->|_]; [|now apply IH].
    apply negb_true_iff in Hfresh.
    assert (existsb (String.eqb k') (map fst m) = true); [|congruence].
    apply existsb_exists. exists k'. split; [|apply String.eqb_refl].
    apply (in_map fst) in Hin. exact Hin.
Qed.

Lemma all_keys_refl (m m' : list (string * Value)) :
  no_dup_keys (map fst m) = true ->
  (forall kv, In kv m' -> In kv m) ->
  Forall (fun kv => wf_value (snd kv) = true ->
                    deepValueEqual (snd kv) (snd kv) = true) m' ->
  forallb (fun kv => wf_value (snd kv)) m' = true ->
  all_keys deepValueEqual m m' = true.
Proof.
  intros Hnd Hsub HF. induction HF as [|[k a] m' Hv _ IH]; simpl;
    [reflexivity|].
  intros [Hw Hl]%andb_prop.
  rewrite (assoc_lookup_first m k a Hnd) by (apply Hsub; now left).
  simpl in Hv. rewrite (Hv Hw). simpl. apply IH; [|exact Hl].
  intros kv Hin. apply Hsub. now right.
Qed.

(** The walk finds every reflection tree equal to itself. *)
Lemma deepValueEqual_refl (v : Value) :
  wf_value v = true -> deepValueEqual v v = true.
Proof.
  induction v using Value_ind; simpl; try reflexivity.
  - intros _. now destruct b.
  - intros _. apply Z.eqb_refl.
  - intros _. apply String.eqb_refl.
  - intros _. apply Qeq_bool_iff. reflexivity.
  - intros _. now rewrite !Z.eqb_refl.
  - exact IHv.
  - intros Hw. rewrite eqb_reflx. simpl. now apply all2_refl.
  - intros [Hnd Hw]%andb_prop. rewrite eqb_reflx, Nat.eqb_refl. simpl.
    now apply all_keys_refl.
  - intros Hw. now apply all2_refl.
Qed.

Lemma ptr_equal_refl (p : option Value) :
  wf_ptr p = true -> ptr_equal deepValueEqual p p = true.
Proof. destruct p; simpl; [apply deepValueEqual_refl|reflexivity]. Qed.

Lemma Semantic_DeepEqual_refl (a : batchv1.JobSpec) :
  wf_JobSpec a = true -> Semantic_DeepEqual a a = true.
Proof.
  unfold wf_JobSpec, Semantic_DeepEqual.
  intros [[[H1 H2]%andb_prop H3]%andb_prop H4]%andb_prop.
  rewrite !ptrZ_equal_refl, !ptrBool_equal_refl, !ptrString_equal_refl,
    !ptr_equal_refl, deepValueEqual_refl by assumption.
  reflexivity.
Qed.





(** * Further properties of the controller *)

(** Case analysis of a pass: one goal per return statement of [Reconcile],
    with the run rewritten to what that path returns. *)
Ltac create_cases cl s b w :=
  let Hc := fresh "Hc" in
  destruct (constructJobForLeviathanBuild s b) as [synErr|synJob] eqn:Hc;
  [ rewrite (create_job_construct_error cl s _ _ w Hc)
  | let Hcr := fresh "Hcr" in
    destruct (Create cl synJob w) as [[creErr|] wC] eqn:Hcr;
    [ rewrite (create_job_create_error cl s _ _ _ _ _ Hc Hcr)
    | rewrite (create_job_created cl s _ _ _ _ Hc Hcr) ] ].

Ltac pass_cases cl s req w :=
  let Hb := fresh "Hb" in
  destruct (GetLeviathanBuild cl req w) as [[getErr|lvB] wB] eqn:Hb;
  [ rewrite (Reconcile_absent cl s req _ _ _ Hb)
  | let Hj := fresh "Hj" in
    destruct (GetJob cl req wB) as [[jobErr|exJob] wJ] eqn:Hj;
    [ let Hq := fresh "Hq" in
      destruct (IsNotFound jobErr) eqn:Hq;
      [ rewrite (Reconcile_no_job cl s req _ _ _ _ _ Hb Hj Hq);
        create_cases cl s lvB wJ
      | rewrite (Reconcile_get_job_error cl s req _ _ _ _ _ Hb Hj Hq) ]
    | let Hq := fresh "Hq" in
      destruct (jobSpecsEqual exJob
                  (batchv1.TemplateSpec
                     (jcrsv1.JobTemplate (jcrsv1.Spec lvB)))) eqn:Hq;
      [ rewrite (Reconcile_match cl s req _ _ _ _ _ Hb Hj Hq)
      | let Hd := fresh "Hd" in
        destruct (Delete cl exJob wJ) as [[delErr|] wD] eqn:Hd;
        [ rewrite (Reconcile_mismatch_delete_error cl s req _ _ _ _ _ _ _
                     Hb Hj Hq Hd)
        | rewrite (Reconcile_mismatch_deleted cl s req _ _ _ _ _ _
                     Hb Hj Hq Hd);
          create_cases cl s lvB wD ] ] ] ];
  unfold outcome, final_world, calls; simpl.

(** ** Reads that fail *)

(** X1.  When the read of the resource fails, the pass is over after that
    one call, the job is not read, and the result is zero: a NotFound is
    swallowed, any other error is returned as it came. *)
Theorem resource_read_failure {W : Type} (cl : Client W) (s : Scheme)
  (req : NamespacedName) (w w1 : W) (err : error) :
  GetLeviathanBuild cl req w = (inl err, w1) ->
  Reconcile cl s req w
  = ((Result_zero, if IsNotFound err then None else Some err), w1,
     [CallGetLeviathanBuild req]).
Proof.
  intros H. rewrite (Reconcile_absent cl s req _ _ _ H).
  unfold IgnoreNotFound. reflexivity.
Qed.

Lemma resource_read_failure_witness :
  Reconcile clusterClient Sample.scheme Sample.reqNamesake Sample.noJob
  = ((Result_zero, None), Sample.noJob,
     [CallGetLeviathanBuild Sample.reqNamesake]).
Proof.
  apply (resource_read_failure clusterClient Sample.scheme Sample.reqNamesake
           Sample.noJob Sample.noJob errNotFound).
  vm_compute; reflexivity.
Defined.

(** X2.  A job read that fails with anything but NotFound, and a delete
    that fails, end the pass with that error and the zero result; nothing
    is synthesized or created after them, whatever the scheme. *)
Theorem job_read_or_delete_failure {W : Type} (cl : Client W) (s : Scheme)
  (req : NamespacedName) (lvBuild : jcrsv1.LeviathanBuild) (w w1 : W) :
  GetLeviathanBuild cl req w = (inr lvBuild, w1) ->
  (forall err w2,
      GetJob cl req w1 = (inl err, w2) ->
      IsNotFound err = false ->
      Reconcile cl s req w
      = ((Result_zero, Some err), w2,
         [CallGetLeviathanBuild req; CallGetJob req]))
  /\ (forall existingJob err w2 w3,
        GetJob cl req w1 = (inr existingJob, w2) ->
        jobSpecsEqual existingJob
          (batchv1.TemplateSpec (jcrsv1.JobTemplate (jcrsv1.Spec lvBuild)))
        = false ->
        Delete cl existingJob w2 = (Some err, w3) ->
        Reconcile cl s req w
        = ((Result_zero, Some err), w3,
           [CallGetLeviathanBuild req; CallGetJob req;
            CallDelete existingJob])).
Proof.
  intros Hb. split.
  - intros err w2 Hj Hq.
    exact (Reconcile_get_job_error cl s req _ _ _ _ _ Hb Hj Hq).
  - intros existingJob err w2 w3 Hj Hq Hd.
    exact (Reconcile_mismatch_delete_error cl s req _ _ _ _ _ _ _ Hb Hj Hq Hd).
Qed.

Lemma job_read_or_delete_failure_witness :
  Reconcile faultyClient Sample.bareScheme Sample.req
    (Sample.noJob, Sample.jobReadsTimeOut)
  = ((Result_zero, Some errTimeout), (Sample.noJob, Sample.jobReadsTimeOut),
     [CallGetLeviathanBuild Sample.req; CallGetJob Sample.req])
  /\ Reconcile faultyClient Sample.bareScheme Sample.req
       (Sample.mismatched, Sample.deletesConflict)
     = ((Result_zero, Some errConflict),
        (Sample.mismatched, Sample.deletesConflict),
        [CallGetLeviathanBuild Sample.req; CallGetJob Sample.req;
         CallDelete (Sample.jobAtKey (Sample.jobSpec "builder:1" None))]).
Proof.
  split.
  - apply (proj1 (job_read_or_delete_failure faultyClient Sample.bareScheme
                    Sample.req Sample.lvBuild
                    (Sample.noJob, Sample.jobReadsTimeOut)
                    (Sample.noJob, Sample.jobReadsTimeOut)
                    ltac:(vm_compute; reflexivity))
             errTimeout (Sample.noJob, Sample.jobReadsTimeOut));
      vm_compute; reflexivity.
  - apply (proj2 (job_read_or_delete_failure faultyClient Sample.bareScheme
                    Sample.req Sample.lvBuild
                    (Sample.mismatched, Sample.deletesConflict)
                    (Sample.mismatched, Sample.deletesConflict)
                    ltac:(vm_compute; reflexivity))
             (Sample.jobAtKey (Sample.jobSpec "builder:1" None)) errConflict
             (Sample.mismatched, Sample.deletesConflict)
             (Sample.mismatched, Sample.deletesConflict));
      vm_compute; reflexivity.
Defined.

(** ** The outcome of a pass *)

(** X3.  On the match path the pass returns what the status update
    returned, error or none, and the zero result either way: a pass that
    finds the job up to date asks for no requeue. *)
Theorem match_returns_status_result {W : Type} (cl : Client W) (s : Scheme)
  (req : NamespacedName) (lvBuild : jcrsv1.LeviathanBuild)
  (existingJob : batchv1.Job) (w w1 w2 : W) :
  GetLeviathanBuild cl req w = (inr lvBuild, w1) ->
  GetJob cl req w1 = (inr existingJob, w2) ->
  jobSpecsEqual existingJob
    (batchv1.TemplateSpec (jcrsv1.JobTemplate (jcrsv1.Spec lvBuild))) = true ->
  outcome (Reconcile cl s req w)
  = (Result_zero, fst (StatusUpdate cl lvBuild w2))
  /\ final_world (Reconcile cl s req w) = snd (StatusUpdate cl lvBuild w2).
Proof.
  intros Hb Hj Hq. rewrite (Reconcile_match cl s req _ _ _ _ _ Hb Hj Hq).
  split; reflexivity.
Qed.

Lemma match_returns_status_result_witness :
  outcome (Reconcile faultyClient Sample.scheme Sample.req
             (Sample.matching, Sample.statusUpdatesConflict))
  = (Result_zero, Some errConflict)
  /\ outcome (Reconcile faultyClient Sample.scheme Sample.req
                (Sample.matching, Sample.noFaults))
     = (Result_zero, None).
Proof.
  split.
  - apply (proj1 (match_returns_status_result faultyClient Sample.scheme
                    Sample.req Sample.lvBuild
                    (Sample.jobAtKey (Sample.jobSpec "builder:2" None))
                    (Sample.matching, Sample.statusUpdatesConflict)
                    (Sample.matching, Sample.statusUpdatesConflict)
                    (Sample.matching, Sample.statusUpdatesConflict)
                    ltac:(vm_compute; reflexivity)
                    ltac:(vm_compute; reflexivity)
                    ltac:(vm_compute; reflexivity))).
  - apply (proj1 (match_returns_status_result faultyClient Sample.scheme
                    Sample.req Sample.lvBuild
                    (Sample.jobAtKey (Sample.jobSpec "builder:2" None))
                    (Sample.matching, Sample.noFaults)
                    (Sample.matching, Sample.noFaults)
                    (Sample.matching, Sample.noFaults)
                    ltac:(vm_compute; reflexivity)
                    ltac:(vm_compute; reflexivity)
                    ltac:(vm_compute; reflexivity))).
Defined.

(** X4.  A pass asks for a requeue exactly when it created a job and the
    create succeeded, and then after one minute; whenever it returns an
    error the result is zero; it never sets the Requeue flag. *)
Theorem requeue_iff_created {W : Type} (cl : Client W) (s : Scheme)
  (req : NamespacedName) (w : W) :
  (fst (outcome (Reconcile cl s req w)) = Result_zero
   \/ fst (outcome (Reconcile cl s req w)) = Result_after_minute)
  /\ Requeue (fst (outcome (Reconcile cl s req w))) = false
  /\ (forall err,
        snd (outcome (Reconcile cl s req w)) = Some err ->
        fst (outcome (Reconcile cl s req w)) = Result_zero)
  /\ (fst (outcome (Reconcile cl s req w)) = Result_after_minute <->
      snd (outcome (Reconcile cl s req w)) = None
      /\ existsb is_create (calls (Reconcile cl s req w)) = true).
Proof.
  pass_cases cl s req w;
    repeat split; intros; auto;
    try discriminate;
    try (destruct (StatusUpdate cl lvB wJ) as [[e|] wS]; simpl in *;
         auto; try discriminate);
    try (unfold IgnoreNotFound in *; destruct (IsNotFound getErr);
         simpl in *; auto; try discriminate);
    try (match goal with H : _ /\ _ |- _ => destruct H; discriminate end).
Qed.

Lemma requeue_iff_created_witness :
  fst (outcome (Reconcile clusterClient Sample.scheme Sample.req
                  Sample.created)) = Result_zero
  /\ fst (outcome (Reconcile clusterClient Sample.scheme Sample.req
                     Sample.noJob)) = Result_after_minute.
Proof.
  split.
  - apply (proj1 (proj2 (proj2 (requeue_iff_created clusterClient
             Sample.scheme Sample.req Sample.created))) errAlreadyExists).
    vm_compute; reflexivity.
  - apply (proj2 (proj2 (proj2 (proj2 (requeue_iff_created clusterClient
             Sample.scheme Sample.req Sample.noJob))))).
    vm_compute; split; reflexivity.
Defined.

(** ** What a pass never does *)

(** X5.  Every pass starts with the read of the resource and issues at
    most four calls; it reads nothing but the request key; it issues at
    most one create and at most one delete; a create ends the pass, so a
    delete never follows a create. *)
Theorem call_discipline {W : Type} (cl : Client W) (s : Scheme)
  (req : NamespacedName) (w : W) :
  hd_error (calls (Reconcile cl s req w)) = Some (CallGetLeviathanBuild req)
  /\ (length (calls (Reconcile cl s req w)) <= 4)%nat
  /\ (forall k, In (CallGetLeviathanBuild k) (calls (Reconcile cl s req w))
                \/ In (CallGetJob k) (calls (Reconcile cl s req w)) ->
                k = req)
  /\ (length (filter is_create (calls (Reconcile cl s req w))) <= 1)%nat
  /\ (length (filter is_delete (calls (Reconcile cl s req w))) <= 1)%nat
  /\ (forall job, In (CallCreate job) (calls (Reconcile cl s req w)) ->
                  List.last (calls (Reconcile cl s req w))
                            (CallGetLeviathanBuild req)
                  = CallCreate job).
Proof.
  destruct (Reconcile_shape cl s req w); simpl;
    (split; [reflexivity|]); (split; [lia|]);
    (split; [intros k [H|H]; simpl in H; intuition congruence|]);
    (split; [lia|]); (split; [lia|]);
    intros j H; simpl in H; intuition congruence.
Qed.

Lemma call_discipline_witness :
  List.last (calls (Reconcile clusterClient Sample.scheme Sample.req
                      Sample.mismatched))
            (CallGetLeviathanBuild Sample.req)
  = CallCreate Sample.synthesized.
Proof.
  apply (proj2 (proj2 (proj2 (proj2 (proj2
           (call_discipline clusterClient Sample.scheme Sample.req
              Sample.mismatched)))))).
  vm_compute. auto.
Defined.

(** X6.  The only job a pass deletes is the job its read under the request
    key returned, and only when the comparator found that job's spec
    unequal to the template's; the job's name, labels and owners play no
    part. *)
Theorem delete_is_of_fetched_job {W : Type} (cl : Client W) (s : Scheme)
  (req : NamespacedName) (w : W) (j : batchv1.Job) :
  In (CallDelete j) (calls (Reconcile cl s req w)) ->
  exists lvBuild,
    fst (GetLeviathanBuild cl req w) = inr lvBuild
    /\ fst (GetJob cl req (snd (GetLeviathanBuild cl req w))) = inr j
    /\ Semantic_DeepEqual (batchv1.Spec j)
         (batchv1.TemplateSpec (jcrsv1.JobTemplate (jcrsv1.Spec lvBuild)))
       = false.
Proof.
  pass_cases cl s req w; intros Hin; simpl in Hin;
    repeat (destruct Hin as [Hin|Hin]; try discriminate Hin);
    try contradiction;
    injection Hin as <-; exists lvB; rewrite Hj; auto.
Qed.

Lemma delete_is_of_fetched_job_witness :
  exists lvBuild,
    fst (GetLeviathanBuild clusterClient Sample.req Sample.mismatched)
    = inr lvBuild
    /\ fst (GetJob clusterClient Sample.req
              (snd (GetLeviathanBuild clusterClient Sample.req
                      Sample.mismatched)))
       = inr (Sample.jobAtKey (Sample.jobSpec "builder:1" None))
    /\ Semantic_DeepEqual
         (batchv1.Spec (Sample.jobAtKey (Sample.jobSpec "builder:1" None)))
         (batchv1.TemplateSpec (jcrsv1.JobTemplate (jcrsv1.Spec lvBuild)))
       = false.
Proof.
  apply (delete_is_of_fetched_job clusterClient Sample.scheme Sample.req
           Sample.mismatched).
  vm_compute. auto.
Defined.

Lemma status_step_writes_what_was_read_witness :
  fst (GetLeviathanBuild clusterClient Sample.req Sample.matching)
  = inr Sample.lvBuild.
Proof.
  apply (status_step_writes_what_was_read clusterClient Sample.scheme
           Sample.req Sample.matching Sample.lvBuild).
  vm_compute. auto.
Defined.

(** ** The synthesizer *)

(** X8.  A synthesized job is in the resource's namespace, carries the
    template's labels and annotations, has no UID or resource version yet,
    and has one owner reference: to the resource by name and UID, under the
    API version and kind the scheme registers, with both the controller and
    the block-owner-deletion flags set; that reference is the job's
    controller. *)
Theorem synthesized_job_contents (s : Scheme) (lvBuild : jcrsv1.LeviathanBuild)
  (job : batchv1.Job) :
  constructJobForLeviathanBuild s lvBuild = inr job ->
  metav1.Namespace (batchv1.ObjectMeta job)
  = metav1.Namespace (jcrsv1.ObjectMeta lvBuild)
  /\ metav1.Labels (batchv1.ObjectMeta job)
     = metav1.Labels (batchv1.TemplateMeta
                        (jcrsv1.JobTemplate (jcrsv1.Spec lvBuild)))
  /\ metav1.Annotations (batchv1.ObjectMeta job)
     = metav1.Annotations (batchv1.TemplateMeta
                             (jcrsv1.JobTemplate (jcrsv1.Spec lvBuild)))
  /\ metav1.UID (batchv1.ObjectMeta job) = ""
  /\ metav1.ResourceVersion (batchv1.ObjectMeta job) = ""
  /\ exists gvk,
       ObjectKinds_LeviathanBuild s = [gvk]
       /\ metav1.OwnerReferences (batchv1.ObjectMeta job)
          = [{| metav1.APIVersion :=
                  schema.GroupVersion_String
                    {| schema.Group := schema.GVKGroup gvk;
                       schema.Version := schema.GVKVersion gvk |};
                metav1.Kind := schema.GVKKind gvk;
                metav1.RefName := metav1.Name (jcrsv1.ObjectMeta lvBuild);
                metav1.RefUID := metav1.UID (jcrsv1.ObjectMeta lvBuild);
                metav1.Controller := Some true;
                metav1.BlockOwnerDeletion := Some true |}]
       /\ metav1.GetControllerOf (batchv1.ObjectMeta job)
          = Some (controller_ref gvk (jcrsv1.ObjectMeta lvBuild)).
Proof.
  intros Hc.
  destruct (construct_job s lvBuild job Hc)
    as (gvk & Hg & _ & Hns & Hl & Ha & Hr & _).
  split; [exact Hns|]. split; [exact Hl|]. split; [exact Ha|].
  assert (Hfresh : metav1.UID (batchv1.ObjectMeta job) = ""
                   /\ metav1.ResourceVersion (batchv1.ObjectMeta job) = "").
  { revert Hc. unfold constructJobForLeviathanBuild, SetControllerReference.
    rewrite validateOwner_same_namespace by reflexivity.
    rewrite Hg. simpl. intros [= <-]. split; reflexivity. }
  split; [exact (proj1 Hfresh)|]. split; [exact (proj2 Hfresh)|].
  exists gvk. split; [|split].
  - unfold GVKForObject in Hg.
    destruct (ObjectKinds_LeviathanBuild s) as [|g [|g' l]];
      try discriminate. now injection Hg as ->.
  - exact Hr.
  - unfold metav1.GetControllerOf. rewrite Hr. reflexivity.
Qed.

Lemma synthesized_job_contents_witness :
  metav1.Namespace (batchv1.ObjectMeta Sample.synthesized)
  = metav1.Namespace (jcrsv1.ObjectMeta Sample.lvBuild).
Proof.
  apply (synthesized_job_contents Sample.scheme Sample.lvBuild
           Sample.synthesized).
  vm_compute; reflexivity.
Defined.



Lemma synthesized_job_is_indexed_witness :
  indexJobOwner Sample.gv Sample.synthesized
  = [metav1.Name (jcrsv1.ObjectMeta Sample.lvBuild)].
Proof.
  apply (synthesized_job_is_indexed Sample.gv Sample.scheme Sample.lvBuild
           Sample.synthesized);
    vm_compute; reflexivity.
Defined.

Lemma length_append (s t : string) :
  String.length (s +:+ t) = (String.length s + String.length t)%nat.
Proof. induction s as [|a s IH]; simpl; [reflexivity|now rewrite IH]. Qed.

Lemma append_cancel_r (s1 s2 t : string) : s1 +:+ t = s2 +:+ t -> s1 = s2.
Proof.
  revert s2. induction s1 as [|a s1 IH]; intros [|b s2] H; simpl in H.
  - reflexivity.
  - apply (f_equal String.length) in H.
    rewrite ?length_append in H. simpl in H. rewrite ?length_append in H. lia.
  - apply (f_equal String.length) in H.
    rewrite ?length_append in H. simpl in H. rewrite ?length_append in H. lia.
  - injection H as -> H. f_equal. now apply IH.
Qed.

(** X11.  Resources under different keys get jobs under different keys:
    the synthesized key determines the resource's namespace and name. *)
Theorem distinct_resources_distinct_jobs (s1 s2 : Scheme)
  (b1 b2 : jcrsv1.LeviathanBuild) (j1 j2 : batchv1.Job) :
  constructJobForLeviathanBuild s1 b1 = inr j1 ->
  constructJobForLeviathanBuild s2 b2 = inr j2 ->
  key_of (jcrsv1.ObjectMeta b1) <> key_of (jcrsv1.ObjectMeta b2) ->
  key_of (batchv1.ObjectMeta j1) <> key_of (batchv1.ObjectMeta j2).
Proof.
  intros H1 H2 Hne Heq. apply Hne.
  rewrite (construct_job_key s1 b1 j1 H1), (construct_job_key s2 b2 j2 H2)
    in Heq.
  injection Heq as Hns Hn. unfold Sprintf_s_d in Hn.
  apply append_cancel_r in Hn. unfold key_of. now rewrite Hns, Hn.
Qed.

Lemma distinct_resources_distinct_jobs_witness :
  key_of (batchv1.ObjectMeta Sample.synthesized)
  <> key_of (batchv1.ObjectMeta Sample.synthesizedNamesake).
Proof.
  apply (distinct_resources_distinct_jobs Sample.scheme Sample.scheme
           Sample.lvBuild Sample.namesake);
    [vm_compute; reflexivity | vm_compute; reflexivity | discriminate].
Defined.

(** ** What a pass does to the cluster *)

#[global] Instance faultyClient_faithful : Faithful faultyClient fst.
Proof.
  split; simpl.
  - intros k [c f]; simpl. destruct (f (CallGetLeviathanBuild k)); simpl;
      [reflexivity|].
    unfold cluster_get_build. now destruct (builds c !! k).
  - intros k [c f] b; simpl. destruct (f (CallGetLeviathanBuild k)); simpl;
      [discriminate|].
    unfold cluster_get_build. destruct (builds c !! k); simpl; congruence.
  - intros k [c f]; simpl. destruct (f (CallGetJob k)); simpl; [reflexivity|].
    unfold cluster_get_job. now destruct (jobs c !! k).
  - intros k [c f] j; simpl. destruct (f (CallGetJob k)); simpl;
      [discriminate|].
    unfold cluster_get_job. destruct (jobs c !! k); simpl; congruence.
  - intros j [c f]; simpl. destruct (f (CallCreate j)); simpl; [discriminate|].
    unfold cluster_create.
    now destruct (jobs c !! key_of (batchv1.ObjectMeta j)).
  - intros j [c f] err; simpl. destruct (f (CallCreate j)); simpl;
      [reflexivity|].
    unfold cluster_create.
    now destruct (jobs c !! key_of (batchv1.ObjectMeta j)).
  - intros j [c f]; simpl. destruct (f (CallDelete j)); simpl; [discriminate|].
    unfold cluster_delete.
    now destruct (jobs c !! key_of (batchv1.ObjectMeta j)).
  - intros j [c f] err; simpl. destruct (f (CallDelete j)); simpl;
      [reflexivity|].
    unfold cluster_delete.
    now destruct (jobs c !! key_of (batchv1.ObjectMeta j)).
  - intros b [c f]; simpl. destruct (f (CallStatusUpdate b)); simpl;
      [discriminate|].
    unfold cluster_status_update.
    now destruct (builds c !! key_of (jcrsv1.ObjectMeta b)).
  - intros b [c f] err; simpl. destruct (f (CallStatusUpdate b)); simpl;
      [reflexivity|].
    unfold cluster_status_update.
    now destruct (builds c !! key_of (jcrsv1.ObjectMeta b)).
Qed.

Section Effects.

Context {W : Type} (cl : Client W) (view : W -> Cluster).
Context `{!Faithful cl view}.
Variable s : Scheme.
Variable req : NamespacedName.

Lemma create_view job w w1 :
  Create cl job w = (None, w1) ->
  view w1
  = set_jobs (<[key_of (batchv1.ObjectMeta job) := job]> (jobs (view w)))
             (view w).
Proof.
  intros H. pose proof (create_done (cl:=cl) (view:=view) job w) as Hd.
  rewrite H in Hd. specialize (Hd eq_refl). simpl in Hd.
  unfold cluster_create in Hd.
  destruct (jobs (view w) !! key_of (batchv1.ObjectMeta job)); [discriminate|].
  now injection Hd as <-.
Qed.

Lemma delete_view job w w1 :
  Delete cl job w = (None, w1) ->
  view w1
  = set_jobs (delete (key_of (batchv1.ObjectMeta job)) (jobs (view w)))
             (view w).
Proof.
  intros H. pose proof (delete_done (cl:=cl) (view:=view) job w) as Hd.
  rewrite H in Hd. exact (Hd eq_refl).
Qed.

Lemma delete_error_view job err w w1 :
  Delete cl job w = (Some err, w1) -> view w1 = view w.
Proof.
  intros H. pose proof (delete_failed (cl:=cl) (view:=view) job w err) as Hd.
  rewrite H in Hd. exact (Hd eq_refl).
Qed.

(** A status update that carries a resource as it is stored changes
    nothing, whether it succeeds or fails. *)
Lemma status_update_view b w :
  builds (view w) !! key_of (jcrsv1.ObjectMeta b) = Some b ->
  view (snd (StatusUpdate cl b w)) = view w.
Proof.
  intros Hb. destruct (fst (StatusUpdate cl b w)) as [err|] eqn:E.
  - exact (status_update_failed (cl:=cl) (view:=view) b w err E).
  - pose proof (status_update_done (cl:=cl) (view:=view) b w E) as Hd.
    unfold cluster_status_update in Hd. rewrite Hb in Hd.
    injection Hd as <-.
    assert (Hs : with_status (jcrsv1.Status b) b = b) by now destruct b.
    rewrite Hs, insert_id by exact Hb. now destruct (view w).
Qed.

(** What a pass leaves of the cluster it found. *)
Lemma pass_effect w :
  cluster_wf (view w) ->
  builds (view (final_world (Reconcile cl s req w))) = builds (view w)
  /\ (forall k,
        k <> req ->
        k <> (fst req, Sprintf_s_d (snd req) (GoTime.Unix GoTime.zero)) ->
        jobs (view (final_world (Reconcile cl s req w))) !! k
        = jobs (view w) !! k)
  /\ (jobs (view (final_world (Reconcile cl s req w))) !! req
      = jobs (view w) !! req
      \/ jobs (view (final_world (Reconcile cl s req w))) !! req = None).
Proof.
  intros Hwf.
  assert (Hkeep : forall w', view w' = view w ->
            builds (view w') = builds (view w)
            /\ (forall k,
                  k <> req ->
                  k <> (fst req,
                        Sprintf_s_d (snd req) (GoTime.Unix GoTime.zero)) ->
                  jobs (view w') !! k = jobs (view w) !! k)
            /\ (jobs (view w') !! req = jobs (view w) !! req
                \/ jobs (view w') !! req = None)).
  { intros w' ->. auto. }
  pass_cases cl s req w.
  - apply Hkeep. now rewrite <- (get_build_view (cl:=cl) (view:=view) req w), Hb.
  - (* no job, synthesis failed *)
    apply Hkeep. destruct (get_build_at cl view req _ _ _ Hb) as [Hv1 _].
    destruct (get_job_at cl view req _ _ _ Hj) as [Hv2 _]. congruence.
  - (* no job, create failed *)
    apply Hkeep. destruct (get_build_at cl view req _ _ _ Hb) as [Hv1 _].
    destruct (get_job_at cl view req _ _ _ Hj) as [Hv2 _].
    rewrite (create_error_at cl view _ _ _ _ Hcr). congruence.
  - (* no job, created *)
    destruct (get_build_at cl view req _ _ _ Hb) as [Hv1 Hbv].
    destruct (get_job_at cl view req _ _ _ Hj) as [Hv2 _].
    rewrite Hv1 in Hv2.
    destruct (synthesized_key_ne view s req w lvB synJob Hwf Hbv Hc)
      as [Hk Hkne].
    rewrite (create_view _ _ _ Hcr), Hv2. simpl.
    split; [reflexivity|]. split.
    + intros k _ Hk2. rewrite lookup_insert_ne; [reflexivity|congruence].
    + left. now rewrite lookup_insert_ne.
  - (* job read failed *)
    apply Hkeep. destruct (get_build_at cl view req _ _ _ Hb) as [Hv1 _].
    destruct (get_job_at cl view req _ _ _ Hj) as [Hv2 _]. congruence.
  - (* match *)
    apply Hkeep. destruct (get_build_at cl view req _ _ _ Hb) as [Hv1 Hbv].
    destruct (get_job_at cl view req _ _ _ Hj) as [Hv2 _].
    rewrite Hv1 in Hv2.
    rewrite status_update_view; [exact Hv2|].
    rewrite Hv2, (proj1 Hwf _ _ Hbv). exact Hbv.
  - (* delete failed *)
    apply Hkeep. destruct (get_build_at cl view req _ _ _ Hb) as [Hv1 _].
    destruct (get_job_at cl view req _ _ _ Hj) as [Hv2 _].
    rewrite (delete_error_view _ _ _ _ Hd). congruence.
  - (* deleted, synthesis failed *)
    destruct (get_build_at cl view req _ _ _ Hb) as [Hv1 Hbv].
    destruct (get_job_at cl view req _ _ _ Hj) as [Hv2 Hjv].
    specialize (Hjv _ eq_refl). rewrite Hv1 in Hv2, Hjv.
    rewrite (delete_view _ _ _ Hd), Hv2, (proj2 Hwf _ _ Hjv). simpl.
    split; [reflexivity|]. split.
    + intros k Hk1 _. now rewrite lookup_delete_ne.
    + right. apply lookup_delete_eq.
  - (* deleted, create failed *)
    destruct (get_build_at cl view req _ _ _ Hb) as [Hv1 Hbv].
    destruct (get_job_at cl view req _ _ _ Hj) as [Hv2 Hjv].
    specialize (Hjv _ eq_refl). rewrite Hv1 in Hv2, Hjv.
    rewrite (create_error_at cl view _ _ _ _ Hcr).
    rewrite (delete_view _ _ _ Hd), Hv2, (proj2 Hwf _ _ Hjv). simpl.
    split; [reflexivity|]. split.
    + intros k Hk1 _. now rewrite lookup_delete_ne.
    + right. apply lookup_delete_eq.
  - (* deleted, created *)
    destruct (get_build_at cl view req _ _ _ Hb) as [Hv1 Hbv].
    destruct (get_job_at cl view req _ _ _ Hj) as [Hv2 Hjv].
    specialize (Hjv _ eq_refl). rewrite Hv1 in Hv2, Hjv.
    destruct (synthesized_key_ne view s req w lvB synJob Hwf Hbv Hc)
      as [Hk Hkne].
    rewrite (create_view _ _ _ Hcr), (delete_view _ _ _ Hd), Hv2,
      (proj2 Hwf _ _ Hjv). simpl.
    split; [reflexivity|]. split.
    + intros k Hk1 Hk2.
      rewrite lookup_insert_ne, lookup_delete_ne; [reflexivity|auto|congruence].
    + right. rewrite lookup_insert_ne by exact Hkne. apply lookup_delete_eq.
Qed.

End Effects.

(** X12.  No pass changes any stored resource, its status included: over
    a faithful client of a well-formed cluster the resources after the pass
    are the resources before it, on every path and whether or not the
    status update succeeds. *)
Theorem resources_are_never_changed {W : Type} (cl : Client W)
  (view : W -> Cluster) `{!Faithful cl view} (s : Scheme)
  (req : NamespacedName) (w : W) :
  cluster_wf (view w) ->
  builds (view (final_world (Reconcile cl s req w))) = builds (view w).
Proof. intros Hwf. exact (proj1 (pass_effect cl view s req w Hwf)). Qed.

Lemma resources_are_never_changed_witness :
  builds (fst (final_world (Reconcile faultyClient Sample.scheme Sample.req
                              (Sample.matching, Sample.noFaults))))
  = builds Sample.matching.
Proof.
  apply (resources_are_never_changed faultyClient fst Sample.scheme
           Sample.req (Sample.matching, Sample.noFaults)).
  split; intros k x Hx; simpl in Hx;
    apply lookup_singleton_Some in Hx as [<- <-]; reflexivity.
Defined.



(** ** Passes one after the other *)

(** With the resource there, no job under the request key and the
    synthesized name taken, a pass over the in-memory cluster is answered
    AlreadyExists and leaves the cluster as it is. *)
Lemma name_taken_is_stuck (s : Scheme) (req : NamespacedName) (c : Cluster)
  (lvBuild : jcrsv1.LeviathanBuild) (job taken : batchv1.Job) :
  builds c !! req = Some lvBuild ->
  jobs c !! req = None ->
  constructJobForLeviathanBuild s lvBuild = inr job ->
  jobs c !! key_of (batchv1.ObjectMeta job) = Some taken ->
  forall n,
    Reconcile clusterClient s req (fst (passes clusterClient s req n c))
    = ((Result_zero, Some errAlreadyExists), c,
       [CallGetLeviathanBuild req; CallGetJob req; CallCreate job]).
Proof.
  intros Hb Hno Hc Htaken.
  assert (Hstep : Reconcile clusterClient s req c
                  = ((Result_zero, Some errAlreadyExists), c,
                     [CallGetLeviathanBuild req; CallGetJob req;
                      CallCreate job])).
  { rewrite (Reconcile_no_job clusterClient s req lvBuild errNotFound c c c).
    - rewrite (create_job_create_error clusterClient s lvBuild job
                 errAlreadyExists c c Hc); [reflexivity|].
      simpl. unfold cluster_create. now rewrite Htaken.
    - simpl. unfold cluster_get_build. now rewrite Hb.
    - simpl. unfold cluster_get_job. now rewrite Hno.
    - reflexivity. }
  assert (Hfix : forall n, fst (passes clusterClient s req n c) = c).
  { induction n as [|n IH]; simpl; [reflexivity|].
    rewrite Hstep. unfold final_world. simpl.
    destruct (passes clusterClient s req n c) as [w' t]. exact IH. }
  intros n. rewrite Hfix. exact Hstep.
Qed.

(** X14.  On the in-memory cluster, once a pass has created a job, on the
    no-job path or as a replacement, every later pass for the same request
    finds no job under the request key, tries the same create, is answered
    AlreadyExists, returns that error and leaves the cluster as it is. *)
Theorem stuck_after_create (s : Scheme) (req : NamespacedName) (c : Cluster) :
  cluster_wf c ->
  outcome (Reconcile clusterClient s req c) = (Result_after_minute, None) ->
  exists job,
    List.last (calls (Reconcile clusterClient s req c))
              (CallGetLeviathanBuild req) = CallCreate job
    /\ forall n,
         Reconcile clusterClient s req
           (fst (passes clusterClient s req n
                   (final_world (Reconcile clusterClient s req c))))
         = ((Result_zero, Some errAlreadyExists),
            final_world (Reconcile clusterClient s req c),
            [CallGetLeviathanBuild req; CallGetJob req; CallCreate job]).
Proof.
  intros Hwf.
  pass_cases clusterClient s req c; intros Hout;
    try discriminate Hout;
    try (destruct (cluster_status_update lvB wJ) as [[e|] wS];
         discriminate Hout).
  - (* created on the no-job path *)
    exists synJob. split; [reflexivity|].
    pose proof Hb as Hb'. pose proof Hj as Hj'. pose proof Hcr as Hcr'.
    simpl in Hb', Hj', Hcr'.
    unfold cluster_get_build in Hb'. unfold cluster_get_job in Hj'.
    unfold cluster_create in Hcr'.
    destruct (builds c !! req) as [b|] eqn:Eb; [|discriminate].
    injection Hb' as -> <-.
    destruct (jobs c !! req) as [j|] eqn:Ej; [discriminate|].
    injection Hj' as _ <-.
    destruct (jobs c !! key_of (batchv1.ObjectMeta synJob)) eqn:Ek;
      [discriminate|].
    injection Hcr' as <-.
    destruct (synthesized_key_ne id s req c lvB synJob Hwf Eb Hc) as [_ Hkne].
    apply (name_taken_is_stuck s req _ lvB synJob synJob); simpl; auto.
    + now rewrite lookup_insert_ne.
    + now rewrite lookup_insert_eq.
  - (* created as a replacement *)
    exists synJob. split; [reflexivity|].
    pose proof Hb as Hb'. pose proof Hj as Hj'. pose proof Hd as Hd'.
    pose proof Hcr as Hcr'.
    simpl in Hb', Hj', Hd', Hcr'.
    unfold cluster_get_build in Hb'. unfold cluster_get_job in Hj'.
    unfold cluster_delete in Hd'. unfold cluster_create in Hcr'.
    destruct (builds c !! req) as [b|] eqn:Eb; [|discriminate].
    injection Hb' as -> <-.
    destruct (jobs c !! req) as [j|] eqn:Ej; [|discriminate].
    injection Hj' as -> <-.
    pose proof (proj2 Hwf _ _ Ej) as Hkey. rewrite Hkey, Ej in Hd'.
    injection Hd' as <-. simpl in Hcr'.
    destruct (delete req (jobs c) !! key_of (batchv1.ObjectMeta synJob)) eqn:Ek;
      [discriminate|].
    injection Hcr' as <-.
    destruct (synthesized_key_ne id s req c lvB synJob Hwf Eb Hc) as [_ Hkne].
    apply (name_taken_is_stuck s req _ lvB synJob synJob); simpl; auto.
    + rewrite lookup_insert_ne by exact Hkne. apply lookup_delete_eq.
    + now rewrite lookup_insert_eq.
Qed.

Lemma stuck_after_create_witness :
  exists job,
    List.last (calls (Reconcile clusterClient Sample.scheme Sample.req
                        Sample.mismatched))
              (CallGetLeviathanBuild Sample.req) = CallCreate job
    /\ forall n,
         Reconcile clusterClient Sample.scheme Sample.req
           (fst (passes clusterClient Sample.scheme Sample.req n
                   (final_world (Reconcile clusterClient Sample.scheme
                                   Sample.req Sample.mismatched))))
         = ((Result_zero, Some errAlreadyExists),
            final_world (Reconcile clusterClient Sample.scheme Sample.req
                           Sample.mismatched),
            [CallGetLeviathanBuild Sample.req; CallGetJob Sample.req;
             CallCreate job]).
Proof.
  apply (stuck_after_create Sample.scheme Sample.req Sample.mismatched).
  - split; intros k x Hx; simpl in Hx;
      apply lookup_singleton_Some in Hx as [<- <-]; reflexivity.
  - vm_compute; reflexivity.
Defined.

(** X15.  A pass that finds the job matching changes nothing in the
    cluster, whether its status update succeeds or fails: over a faithful
    client of a well-formed cluster the cluster after the pass is the
    cluster before it. *)
Theorem match_changes_nothing {W : Type} (cl : Client W)
  (view : W -> Cluster) `{!Faithful cl view} (s : Scheme)
  (req : NamespacedName) (lvBuild : jcrsv1.LeviathanBuild)
  (existingJob : batchv1.Job) (w w1 w2 : W) :
  cluster_wf (view w) ->
  GetLeviathanBuild cl req w = (inr lvBuild, w1) ->
  GetJob cl req w1 = (inr existingJob, w2) ->
  jobSpecsEqual existingJob
    (batchv1.TemplateSpec (jcrsv1.JobTemplate (jcrsv1.Spec lvBuild))) = true ->
  view (final_world (Reconcile cl s req w)) = view w.
Proof.
  intros Hwf Hb Hj Hq.
  rewrite (Reconcile_match cl s req _ _ _ _ _ Hb Hj Hq).
  unfold final_world. simpl.
  destruct (get_build_at cl view req _ _ _ Hb) as [Hv1 Hbv].
  destruct (get_job_at cl view req _ _ _ Hj) as [Hv2 _].
  rewrite Hv1 in Hv2.
  rewrite (status_update_view cl view); [exact Hv2|].
  rewrite Hv2, (proj1 Hwf _ _ Hbv). exact Hbv.
Qed.

Lemma match_changes_nothing_witness :
  fst (final_world (Reconcile faultyClient Sample.scheme Sample.req
                      (Sample.matching, Sample.statusUpdatesConflict)))
  = Sample.matching.
Proof.
  apply (match_changes_nothing faultyClient fst Sample.scheme Sample.req
           Sample.lvBuild (Sample.jobAtKey (Sample.jobSpec "builder:2" None))
           (Sample.matching, Sample.statusUpdatesConflict)
           (Sample.matching, Sample.statusUpdatesConflict)
           (Sample.matching, Sample.statusUpdatesConflict));
    [ split; intros k x Hx; simpl in Hx;
      apply lookup_singleton_Some in Hx as [<- <-]; reflexivity
    | vm_compute; reflexivity .. ].
Defined.

(** ** The synthesizer and the comparator *)

(** X16.  A job as the synthesizer makes it compares equal to the template
    it was made from: were it read back unchanged, the pass would take the
    match branch. *)
Theorem synthesized_job_matches_template (s : Scheme)
  (lvBuild : jcrsv1.LeviathanBuild) (job : batchv1.Job) :
  constructJobForLeviathanBuild s lvBuild = inr job ->
  wf_JobSpec (batchv1.TemplateSpec (jcrsv1.JobTemplate (jcrsv1.Spec lvBuild)))
  = true ->
  jobSpecsEqual job
    (batchv1.TemplateSpec (jcrsv1.JobTemplate (jcrsv1.Spec lvBuild))) = true.
Proof.
  intros Hc Hwf.
  destruct (construct_job s lvBuild job Hc) as (_ & _ & _ & _ & _ & _ & _ & Hs).
  unfold jobSpecsEqual. rewrite Hs. now apply Semantic_DeepEqual_refl.
Qed.

Lemma synthesized_job_matches_template_witness :
  jobSpecsEqual Sample.synthesized
    (batchv1.TemplateSpec (jcrsv1.JobTemplate (jcrsv1.Spec Sample.lvBuild)))
  = true.
Proof.
  apply (synthesized_job_matches_template Sample.scheme Sample.lvBuild
           Sample.synthesized);
    vm_compute; reflexivity.
Defined.

(** ** The validation markers of the resource type *)

(** X17.  The enum declared for build types admits none of the three
    build types the file declares, and so not the declared default either;
    the enum declared for source types admits the three declared source
    types but not the default declared for the field. *)
Theorem markers_disagree_with_constants :
  (forall v, In v [jcrsv1.Build; jcrsv1.BuildPublish; jcrsv1.Publish] ->
             markers.admits markers.BuildType_Enum v = false)
  /\ markers.admits markers.BuildType_Enum markers.BuildType_Default = false
  /\ (forall v,
        In v [jcrsv1.LocalSource; jcrsv1.GitSource; jcrsv1.S3Source] ->
        markers.admits markers.SourceType_Enum v = true)
  /\ markers.admits markers.SourceType_Enum markers.SourceType_Default = false.
Proof.
  repeat split.
  - intros v [<-|[<-|[<-|[]]]]; reflexivity.
  - intros v [<-|[<-|[<-|[]]]]; reflexivity.
Qed.

Lemma markers_disagree_with_constants_witness :
  markers.admits markers.BuildType_Enum jcrsv1.BuildPublish = false
  /\ markers.admits markers.SourceType_Enum jcrsv1.GitSource = true.
Proof.
  split.
  - apply (proj1 markers_disagree_with_constants). simpl. auto.
  - apply (proj1 (proj2 (proj2 markers_disagree_with_constants))).
    simpl. auto.
Defined.

(** ** The comparator does not depend on the order of its arguments *)

Lemma bool_eqb_sym (a b : bool) : Bool.eqb a b = Bool.eqb b a.
Proof. now destruct a, b. Qed.

Lemma Qeq_bool_sym (a b : Q) : Qeq_bool a b = Qeq_bool b a.
Proof.
  apply eq_iff_eq_true. rewrite !Qeq_bool_iff. split; intros H; now symmetry.
Qed.

Lemma no_dup_keys_NoDup (ks : list string) :
  no_dup_keys ks = true -> List.NoDup ks.
Proof.
  induction ks as [|k ks IH]; simpl; [constructor|].
  intros [Hfresh Hnd]%andb_prop. constructor; [|now apply IH].
  intros Hin. apply negb_true_iff in Hfresh.
  assert (existsb (String.eqb k) ks = true); [|congruence].
  apply existsb_exists. exists k. split; [exact Hin|apply String.eqb_refl].
Qed.

Lemma assoc_lookup_In {A} (m : list (string * A)) k a :
  assoc_lookup k m = Some a -> In (k, a) m.
Proof.
  induction m as [|[k' a'] m IH]; simpl; [discriminate|].
  destruct (String.eqb_spec k k') as [->|_].
  - intros [= ->]. now left.
  - intros H. right. now apply IH.
Qed.

(** What [all_keys] decides. *)
Lemma all_keys_spec eqv (m2 m1 : list (string * Value)) :
  all_keys eqv m2 m1 = true <->
  (forall k a, In (k, a) m1 ->
               exists b, assoc_lookup k m2 = Some b /\ eqv a b = true).
Proof.
  induction m1 as [|[k a] m1 IH]; simpl.
  - split; [intros _ k a []|reflexivity].
  - split.
    + destruct (assoc_lookup k m2) as [b|] eqn:E; [|discriminate].
      intros [Hab Hrest]%andb_prop k' a' [[= <- <-]|Hin].
      * now exists b.
      * now apply IH.
    + intros H. destruct (H k a (or_introl eq_refl)) as (b & -> & ->).
      simpl. apply IH. intros k' a' Hin. apply H. now right.
Qed.

Lemma all_keys_flip eqv (m1 m2 : list (string * Value)) :
  no_dup_keys (map fst m1) = true ->
  no_dup_keys (map fst m2) = true ->
  length m1 = length m2 ->
  (forall k a b, In (k, a) m1 -> In (k, b) m2 -> eqv a b = eqv b a) ->
  all_keys eqv m2 m1 = true ->
  all_keys eqv m1 m2 = true.
Proof.
  intros Hnd1 Hnd2 Hlen Hsym H12.
  rewrite all_keys_spec in H12. apply all_keys_spec.
  assert (Hincl : incl (map fst m1) (map fst m2)).
  { intros k Hk. apply in_map_iff in Hk as ([k' a] & <- & Hin).
    destruct (H12 _ _ Hin) as (b & Hb & _).
    apply assoc_lookup_In in Hb. now apply (in_map fst) in Hb. }
  assert (Hback : incl (map fst m2) (map fst m1)).
  { apply List.NoDup_length_incl; [now apply no_dup_keys_NoDup| |exact Hincl].
    rewrite !length_map. lia. }
  intros k b Hin2.
  assert (Hk : In k (map fst m1)) by (apply Hback; now apply (in_map fst) in Hin2).
  apply in_map_iff in Hk as ([k' a] & Hk' & Hin1). simpl in Hk'. subst k'.
  exists a. split; [now apply assoc_lookup_first|].
  destruct (H12 _ _ Hin1) as (b' & Hb' & Hab).
  rewrite (assoc_lookup_first m2 k b Hnd2 Hin2) in Hb'. injection Hb' as <-.
  now rewrite <- (Hsym k a b Hin1 Hin2).
Qed.

Lemma all2_sym (l1 : list Value) :
  Forall (fun a => wf_value a = true ->
                   forall b, wf_value b = true ->
                             deepValueEqual a b = deepValueEqual b a) l1 ->
  forallb wf_value l1 = true ->
  forall l2, forallb wf_value l2 = true ->
             all2 deepValueEqual l1 l2 = all2 deepValueEqual l2 l1.
Proof.
  induction 1 as [|a l1 Ha _ IH]; intros Hw1 [|b l2] Hw2; simpl in *;
    try reflexivity.
  apply andb_prop in Hw1 as [Hwa Hw1]. apply andb_prop in Hw2 as [Hwb Hw2].
  now rewrite (Ha Hwa b Hwb), (IH Hw1 l2 Hw2).
Qed.

Lemma forallb_In {A} (f : A -> bool) (l : list A) x :
  forallb f l = true -> In x l -> f x = true.
Proof. intros H Hin. rewrite forallb_forall in H. now apply H. Qed.

(** The walk gives one answer for two reflection trees in either order. *)
Lemma deepValueEqual_sym (v1 : Value) :
  wf_value v1 = true ->
  forall v2, wf_value v2 = true ->
             deepValueEqual v1 v2 = deepValueEqual v2 v1.
Proof.
  induction v1 using Value_ind; intros Hw1 v2 Hw2; destruct v2;
    simpl; try reflexivity.
  - apply bool_eqb_sym.
  - apply Z.eqb_sym.
  - apply String.eqb_sym.
  - apply Qeq_bool_sym.
  - now rewrite (Z.eqb_sym (GoTime.wall t)), (Z.eqb_sym (GoTime.ext t)).
  - destruct p as [b|]; simpl in *; [now apply IHv1|reflexivity].
  - destruct xs as [[|]|]; reflexivity.
  - destruct xs as [l2|]; simpl in *.
    + rewrite (bool_eqb_sym (nil_or_empty (Some l2))).
      destruct (negb _); [reflexivity|]. now apply all2_sym.
    + destruct l; reflexivity.
  - destruct kvs as [[|]|]; reflexivity.
  - destruct kvs as [m2|]; simpl in *.
    + rewrite (bool_eqb_sym (nil_or_empty (Some m2))).
      destruct (negb _); [reflexivity|].
      rewrite (Nat.eqb_sym (length m2)).
      destruct (Nat.eqb_spec (length m) (length m2)) as [Hlen|_];
        [|reflexivity].
      simpl.
      apply andb_prop in Hw1 as [Hnd1 Hwm1].
      apply andb_prop in Hw2 as [Hnd2 Hwm2].
      assert (Hsym : forall k a b, In (k, a) m -> In (k, b) m2 ->
                                   deepValueEqual a b = deepValueEqual b a).
      { intros k a b Hin1 Hin2.
        rewrite List.Forall_forall in H. apply (H (k, a) Hin1).
        - exact (forallb_In _ _ (k, a) Hwm1 Hin1).
        - exact (forallb_In _ _ (k, b) Hwm2 Hin2). }
      apply eq_iff_eq_true. split; intros Hk.
      * apply (all_keys_flip deepValueEqual m m2); auto.
      * apply (all_keys_flip deepValueEqual m2 m); auto.
        intros k b a Hin2 Hin1. symmetry. now apply (Hsym k a b).
    + destruct m; reflexivity.
  - now apply all2_sym.
Qed.

Lemma ptr_equal_sym (p q : option Value) :
  wf_ptr p = true -> wf_ptr q = true ->
  ptr_equal deepValueEqual p q = ptr_equal deepValueEqual q p.
Proof.
  destruct p, q; simpl; try reflexivity. intros. now apply deepValueEqual_sym.
Qed.

Lemma ptrZ_equal_sym (p q : option Z) : ptrZ_equal p q = ptrZ_equal q p.
Proof. destruct p, q; simpl; try reflexivity. apply Z.eqb_sym. Qed.

Lemma ptrBool_equal_sym (p q : option bool) :
  ptrBool_equal p q = ptrBool_equal q p.
Proof. destruct p, q; simpl; try reflexivity. apply bool_eqb_sym. Qed.

Lemma ptrString_equal_sym (p q : option string) :
  ptrString_equal p q = ptrString_equal q p.
Proof. destruct p, q; simpl; try reflexivity. apply String.eqb_sym. Qed.

Lemma Semantic_DeepEqual_sym (a b : batchv1.JobSpec) :
  wf_JobSpec a = true -> wf_JobSpec b = true ->
  Semantic_DeepEqual a b = Semantic_DeepEqual b a.
Proof.
  unfold wf_JobSpec, Semantic_DeepEqual.
  intros [[[A1 A2]%andb_prop A3]%andb_prop A4]%andb_prop
         [[[B1 B2]%andb_prop B3]%andb_prop B4]%andb_prop.
  rewrite (ptr_equal_sym _ _ A1 B1), (ptr_equal_sym _ _ A2 B2),
    (ptr_equal_sym _ _ A3 B3), (deepValueEqual_sym _ A4 _ B4).
  rewrite (ptrZ_equal_sym (batchv1.Parallelism a)),
    (ptrZ_equal_sym (batchv1.Completions a)),
    (ptrZ_equal_sym (batchv1.ActiveDeadlineSeconds a)),
    (ptrZ_equal_sym (batchv1.BackoffLimit a)),
    (ptrZ_equal_sym (batchv1.BackoffLimitPerIndex a)),
    (ptrZ_equal_sym (batchv1.MaxFailedIndexes a)),
    (ptrBool_equal_sym (batchv1.ManualSelector a)),
    (ptrZ_equal_sym (batchv1.TTLSecondsAfterFinished a)),
    (ptrString_equal_sym (batchv1.CompletionMode a)),
    (ptrBool_equal_sym (batchv1.Suspend a)),
    (ptrString_equal_sym (batchv1.PodReplacementPolicy a)),
    (ptrString_equal_sym (batchv1.ManagedBy a)).
  reflexivity.
Qed.

(** X18.  The comparator's verdict does not depend on which of the two
    specs is the existing job's and which the desired one, whatever the
    jobs' metadata. *)
Theorem comparator_is_symmetric (e1 e2 : batchv1.Job) :
  wf_JobSpec (batchv1.Spec e1) = true ->
  wf_JobSpec (batchv1.Spec e2) = true ->
  jobSpecsEqual e1 (batchv1.Spec e2) = jobSpecsEqual e2 (batchv1.Spec e1).
Proof. intros H1 H2. now apply Semantic_DeepEqual_sym. Qed.

Lemma comparator_is_symmetric_witness :
  jobSpecsEqual (Sample.jobAtKey (Sample.jobSpec "builder:1" None))
    (batchv1.Spec Sample.synthesized)
  = jobSpecsEqual Sample.synthesized
      (batchv1.Spec (Sample.jobAtKey (Sample.jobSpec "builder:1" None))).
Proof.
  apply (comparator_is_symmetric
           (Sample.jobAtKey (Sample.jobSpec "builder:1" None))
           Sample.synthesized);
    reflexivity.
Defined.
